(** * Financial-ratio engine of [src/App.jsx]

    A shallow embedding of the ratio computation and classification code of
    the calculator ([calculateRatios], the four [get...Interpretation]
    functions and the input handler), together with the JavaScript number
    primitives the code relies on ([parseFloat], [isNaN], [/], [-], the
    comparisons and [Number.prototype.toFixed]).

    JavaScript numbers are IEEE 754 binary64 values; they are modelled by
    [spec_float] with precision 53 and maximal exponent 1024, and every
    operation is the correctly rounded one of [SpecFloat]. *)

From Stdlib Require Import ZArith Lia Bool List Ascii String DecimalString.
From Stdlib Require Import SpecFloat.
Import ListNotations.

Local Open Scope string_scope.
Local Open Scope Z_scope.

(** ** JavaScript numbers *)

Module JSNumber.

Definition prec : Z := 53.
Definition emax : Z := 1024.

Definition number : Type := spec_float.

Definition NaN : number := S754_nan.
Definition Infinity : number := S754_infinity false.
Definition zero : number := S754_zero false.

(** [x / y] and [x - y] *)
Definition div (x y : number) : number := SFdiv prec emax x y.
Definition sub (x y : number) : number := SFsub prec emax x y.

(** [x < y], [x <= y], [x > y], [x >= y]; all false on NaN *)
Definition ltb (x y : number) : bool := SFltb x y.
Definition leb (x y : number) : bool := SFleb x y.
Definition gtb (x y : number) : bool := SFltb y x.
Definition geb (x y : number) : bool := SFleb y x.

(** [x === y] on numbers, and [x !== y] *)
Definition strict_eqb (x y : number) : bool := SFeqb x y.
Definition strict_neqb (x y : number) : bool := negb (SFeqb x y).

(** the global [isNaN] applied to a number *)
Definition isNaN (x : number) : bool :=
  match x with
  | S754_nan => true
  | _ => false
  end.

(** the global [isFinite] applied to a number *)
Definition isFinite (x : number) : bool :=
  match x with
  | S754_zero _ | S754_finite _ _ _ => true
  | _ => false
  end.

(** The Number value of the decimal [(-1)^s * n * 10^k], [0 <= n]: the
    binary64 nearest to it, ties to even.  The rational [N / D] with
    [N = n * 10^max(k,0)] and [D = 10^max(-k,0)] is rounded once, by the
    division of [SpecFloat] applied to the two integers. *)
Definition of_decimal (s : bool) (n k : Z) : number :=
  match n * 10 ^ Z.max k 0 with
  | Zpos N =>
      SFdiv prec emax (S754_finite s N 0)
                      (S754_finite false (Z.to_pos (10 ^ Z.max (- k) 0)) 0)
  | _ => S754_zero s
  end.

(** *** [parseFloat]

    Strings are sequences of bytes (UTF-8).  [parseFloat] drops leading
    white space, takes the longest prefix that is a [StrDecimalLiteral]
    and returns its Number value, or NaN when there is no such prefix. *)

Definition code (c : ascii) : Z := Z.of_N (N_of_ascii c).

Definition is_digit (c : ascii) : bool :=
  (48 <=? code c) && (code c <=? 57).

Definition digit_value (c : ascii) : Z := code c - 48.

(** TAB, LF, VT, FF, CR, SP *)
Definition is_ws1 (a : Z) : bool :=
  ((9 <=? a) && (a <=? 13)) || (a =? 32).

(** U+00A0 *)
Definition is_ws2 (a b : Z) : bool := (a =? 194) && (b =? 160).

(** U+1680, U+2000..U+200A, U+2028, U+2029, U+202F, U+205F, U+3000,
    U+FEFF *)
Definition is_ws3 (a b c : Z) : bool :=
  ((a =? 225) && (b =? 154) && (c =? 128))
  || ((a =? 226) && (b =? 128)
      && (((128 <=? c) && (c <=? 138)) || (c =? 168) || (c =? 169)
          || (c =? 175)))
  || ((a =? 226) && (b =? 129) && (c =? 159))
  || ((a =? 227) && (b =? 128) && (c =? 128))
  || ((a =? 239) && (b =? 187) && (c =? 191)).

Fixpoint trim_start (s : string) : string :=
  match s with
  | EmptyString => s
  | String c1 r1 =>
      if is_ws1 (code c1) then trim_start r1
      else
        match r1 with
        | EmptyString => s
        | String c2 r2 =>
            if is_ws2 (code c1) (code c2) then trim_start r2
            else
              match r2 with
              | EmptyString => s
              | String c3 r3 =>
                  if is_ws3 (code c1) (code c2) (code c3)
                  then trim_start r3
                  else s
              end
        end
  end.

(** Reads a run of decimal digits: the integer they denote after [acc],
    how many there were after [cnt], and the rest of the string. *)
Fixpoint read_digits (s : string) (acc cnt : Z) : Z * Z * string :=
  match s with
  | String c r =>
      if is_digit c then read_digits r (acc * 10 + digit_value c) (cnt + 1)
      else (acc, cnt, s)
  | EmptyString => (acc, cnt, s)
  end.

Definition read_sign (s : string) : bool * string :=
  match s with
  | String "-" r => (true, r)
  | String "+" r => (false, r)
  | _ => (false, s)
  end.

(** [ExponentPart], when present and complete; 0 otherwise. *)
Definition read_exponent (s : string) : Z :=
  match s with
  | String c r =>
      if (code c =? 101) || (code c =? 69) then
        let '(neg, r') := read_sign r in
        let '(v, cnt, _) := read_digits r' 0 0 in
        if 0 <? cnt then (if neg then - v else v) else 0
      else 0
  | EmptyString => 0
  end.

Definition parseFloat (input : string) : number :=
  let '(neg, s1) := read_sign (trim_start input) in
  if prefix "Infinity" s1 then S754_infinity neg
  else
    let '(ip, ni, s2) := read_digits s1 0 0 in
    match s2 with
    | String "." r =>
        let '(m, nf, s3) := read_digits r ip 0 in
        if (0 <? ni) || (0 <? nf)
        then of_decimal neg m (read_exponent s3 - nf)
        else NaN
    | _ =>
        if 0 <? ni then of_decimal neg ip (read_exponent s2) else NaN
    end.

(** *** [Number.prototype.toFixed] *)

(** decimal digits of a natural number, no leading zero; "0" for 0 *)
Definition digits_of (n : Z) : string :=
  NilZero.string_of_uint (N.to_uint (Z.to_N n)).

Fixpoint zeros (k : nat) : string :=
  match k with
  | O => ""
  | S k' => String "0" (zeros k')
  end.

(** the exact value [m * 2^e] as a fraction [num / den] *)
Definition num_of (m : positive) (e : Z) : Z := Zpos m * 2 ^ Z.max e 0.
Definition den_of (e : Z) : Z := 2 ^ Z.max (- e) 0.

(** [Number::toString] on a positive value [x = m * 2^e >= 10^21] (what
    [toFixed] passes to it): with [d] the number of decimal digits of the
    integer part of [x], the loop looks for the smallest [k] such that a
    decimal [s * 10^(d-k)] of [k] digits converts back to [x], and takes
    the one nearest to [x] (the even one on a tie). *)
Definition shortest_candidate (x : number) (m : positive) (e : Z)
           (d k : Z) : option Z :=
  let p := 10 ^ (d - k) in
  let lo := num_of m e / (den_of e * p) in
  let hi := lo + 1 in
  let ok_lo := SFeqb (of_decimal false (lo * p) 0) x in
  let ok_hi := SFeqb (of_decimal false (hi * p) 0) x in
  let dist_lo := num_of m e - lo * p * den_of e in
  let dist_hi := hi * p * den_of e - num_of m e in
  match ok_lo, ok_hi with
  | true, true =>
      if dist_lo <? dist_hi then Some lo
      else if dist_hi <? dist_lo then Some hi
      else if Z.even lo then Some lo else Some hi
  | true, false => Some lo
  | false, true => Some hi
  | false, false => None
  end.

Fixpoint shortest_digits (fuel : nat) (x : number) (m : positive) (e : Z)
         (d k : Z) : Z * Z :=
  match fuel with
  | O => (num_of m e / den_of e, d)
  | S fuel' =>
      match shortest_candidate x m e d k with
      | Some s => (s, k)
      | None => shortest_digits fuel' x m e d (k + 1)
      end
  end.

Definition exponential_form (s k n : Z) : string :=
  let '(s, n) := if s =? 10 ^ k then (10 ^ (k - 1), n + 1) else (s, n) in
  let ds := digits_of s in
  match ds with
  | String c EmptyString => String c "e+" ++ digits_of (n - 1)
  | String c r => String c ("." ++ r) ++ "e+" ++ digits_of (n - 1)
  | EmptyString => ""
  end.

Definition toString_large (x : number) (m : positive) (e : Z) : string :=
  let d := Z.of_nat (String.length (digits_of (num_of m e / den_of e))) in
  let '(s, k) := shortest_digits (Z.to_nat d) x m e d 1 in
  exponential_form s k d.

(** fixed notation of a value [0 <= num / den < 10^21] with [f] fraction
    digits: [n] is the integer nearest to [num / den * 10^f], the larger
    one on a tie *)
Definition fixed_digits (num den : Z) (f : nat) : string :=
  let n := (2 * (num * 10 ^ Z.of_nat f) + den) / (2 * den) in
  let ds := digits_of n in
  match f with
  | O => ds
  | _ =>
      let ds := if (String.length ds <=? f)%nat
                then zeros (f + 1 - String.length ds) ++ ds
                else ds in
      let k := String.length ds in
      substring 0 (k - f) ds ++ "." ++ substring (k - f) f ds
  end.

(** [x.toFixed(f)] for [0 <= f <= 100] *)
Definition toFixed (x : number) (f : nat) : string :=
  match x with
  | S754_nan => "NaN"
  | S754_infinity false => "Infinity"
  | S754_infinity true => "-Infinity"
  | S754_zero _ => fixed_digits 0 1 f
  | S754_finite sx m e =>
      (if sx then "-" else "")
      ++ (if 10 ^ 21 * den_of e <=? num_of m e
          then toString_large (S754_finite false m e) m e
          else fixed_digits (num_of m e) (den_of e) f)
  end.

End JSNumber.

Import JSNumber.

(** ** Values reaching the classification functions

    In [calculateRatios] the argument is always a number; the functions
    themselves test [typeof ratio !== 'number'] first, so any value may be
    passed to them. *)

Inductive value : Type :=
| VUndefined
| VNull
| VBoolean (b : bool)
| VNumber (x : number)
| VString (s : string)
| VObject.

Definition typeof (v : value) : string :=
  match v with
  | VUndefined => "undefined"
  | VNull => "object"
  | VBoolean _ => "boolean"
  | VNumber _ => "number"
  | VString _ => "string"
  | VObject => "object"
  end.

(** ** Numeric literals of the source, each the Number value of its text *)

Definition lit_0 : number := of_decimal false 0 0.        (* 0 *)
Definition lit_2_0 : number := of_decimal false 20 (-1).  (* 2.0 *)
Definition lit_1_5 : number := of_decimal false 15 (-1).  (* 1.5 *)
Definition lit_1_0 : number := of_decimal false 10 (-1).  (* 1.0 *)
Definition lit_0_5 : number := of_decimal false 5 (-1).   (* 0.5 *)
Definition lit_0_7 : number := of_decimal false 7 (-1).   (* 0.7 *)
Definition lit_0_3 : number := of_decimal false 3 (-1).   (* 0.3 *)
Definition lit_5_0 : number := of_decimal false 50 (-1).  (* 5.0 *)
Definition lit_0_30 : number := of_decimal false 30 (-2). (* 0.30 *)
Definition lit_0_50 : number := of_decimal false 50 (-2). (* 0.50 *)
Definition lit_0_70 : number := of_decimal false 70 (-2). (* 0.70 *)
Definition lit_0_90 : number := of_decimal false 90 (-2). (* 0.90 *)

(** ** Interpretation labels *)

Definition Excelente : string := "Excelente 🚀".
Definition Bueno : string := "Bueno 👍".
Definition Regular : string := "Regular 😐".
Definition Malo : string := "Malo 🚩".
Definition Pesimo : string := "Pésimo 🚨".

Definition labels : list string := [Excelente; Bueno; Regular; Malo; Pesimo].

(** ** The four classification functions *)

Definition getCurrentRatioInterpretation (ratio : value) : string :=
  match ratio with
  | VNumber r =>
      if isNaN r then ""
      else if gtb r lit_2_0 then Excelente
      else if geb r lit_1_5 then Bueno
      else if geb r lit_1_0 then Regular
      else if geb r lit_0_5 then Malo
      else Pesimo
  | _ => ""
  end.

Definition getQuickRatioInterpretation (ratio : value) : string :=
  match ratio with
  | VNumber r =>
      if isNaN r then ""
      else if gtb r lit_1_5 then Excelente
      else if geb r lit_1_0 then Bueno
      else if geb r lit_0_7 then Regular
      else if geb r lit_0_3 then Malo
      else Pesimo
  | _ => ""
  end.

Definition getDebtToEquityInterpretation (ratio : value) : string :=
  match ratio with
  | VNumber r =>
      if isNaN r then ""
      else if ltb r lit_0_5 then Excelente
      else if geb r lit_0_5 && leb r lit_1_0 then Bueno
      else if gtb r lit_1_0 && leb r lit_2_0 then Regular
      else if gtb r lit_2_0 && leb r lit_5_0 then Malo
      else Pesimo
  | _ => ""
  end.

Definition getDebtToAssetsInterpretation (ratio : value) : string :=
  match ratio with
  | VNumber r =>
      if isNaN r then ""
      else if ltb r lit_0_30 then Excelente
      else if geb r lit_0_30 && leb r lit_0_50 then Bueno
      else if gtb r lit_0_50 && leb r lit_0_70 then Regular
      else if gtb r lit_0_70 && leb r lit_0_90 then Malo
      else Pesimo
  | _ => ""
  end.

(** ** Component state

    The [useState] cells of [App].  [Form] holds what the user typed,
    [Outcome] what [calculateRatios] writes; a ratio cell is [null]
    ([None]) or a string. *)

Record Form : Type := {
  companyTicker : string;
  selectedCurrency : string;
  reportDate : string;
  currentAssets : string;
  currentLiabilities : string;
  totalAssets : string;
  totalLiabilities : string;
  shareholdersEquity : string;
  inventory : string
}.

Record Outcome : Type := {
  currentRatio : option string;
  currentRatioInterpretation : string;
  quickRatio : option string;
  quickRatioInterpretation : string;
  debtToEquityRatio : option string;
  debtToEquityInterpretation : string;
  debtToAssetsRatio : option string;
  debtToAssetsInterpretation : string;
  error : string
}.

Record State : Type := { form : Form; outcome : Outcome }.

Definition with_outcome (f : Outcome -> Outcome) (st : State) : State :=
  {| form := form st; outcome := f (outcome st) |}.

Definition setCurrentRatio (v : option string) : State -> State :=
  with_outcome (fun o =>
    {| currentRatio := v;
       currentRatioInterpretation := currentRatioInterpretation o;
       quickRatio := quickRatio o;
       quickRatioInterpretation := quickRatioInterpretation o;
       debtToEquityRatio := debtToEquityRatio o;
       debtToEquityInterpretation := debtToEquityInterpretation o;
       debtToAssetsRatio := debtToAssetsRatio o;
       debtToAssetsInterpretation := debtToAssetsInterpretation o;
       error := error o |}).

Definition setCurrentRatioInterpretation (v : string) : State -> State :=
  with_outcome (fun o =>
    {| currentRatio := currentRatio o;
       currentRatioInterpretation := v;
       quickRatio := quickRatio o;
       quickRatioInterpretation := quickRatioInterpretation o;
       debtToEquityRatio := debtToEquityRatio o;
       debtToEquityInterpretation := debtToEquityInterpretation o;
       debtToAssetsRatio := debtToAssetsRatio o;
       debtToAssetsInterpretation := debtToAssetsInterpretation o;
       error := error o |}).

Definition setQuickRatio (v : option string) : State -> State :=
  with_outcome (fun o =>
    {| currentRatio := currentRatio o;
       currentRatioInterpretation := currentRatioInterpretation o;
       quickRatio := v;
       quickRatioInterpretation := quickRatioInterpretation o;
       debtToEquityRatio := debtToEquityRatio o;
       debtToEquityInterpretation := debtToEquityInterpretation o;
       debtToAssetsRatio := debtToAssetsRatio o;
       debtToAssetsInterpretation := debtToAssetsInterpretation o;
       error := error o |}).

Definition setQuickRatioInterpretation (v : string) : State -> State :=
  with_outcome (fun o =>
    {| currentRatio := currentRatio o;
       currentRatioInterpretation := currentRatioInterpretation o;
       quickRatio := quickRatio o;
       quickRatioInterpretation := v;
       debtToEquityRatio := debtToEquityRatio o;
       debtToEquityInterpretation := debtToEquityInterpretation o;
       debtToAssetsRatio := debtToAssetsRatio o;
       debtToAssetsInterpretation := debtToAssetsInterpretation o;
       error := error o |}).

Definition setDebtToEquityRatio (v : option string) : State -> State :=
  with_outcome (fun o =>
    {| currentRatio := currentRatio o;
       currentRatioInterpretation := currentRatioInterpretation o;
       quickRatio := quickRatio o;
       quickRatioInterpretation := quickRatioInterpretation o;
       debtToEquityRatio := v;
       debtToEquityInterpretation := debtToEquityInterpretation o;
       debtToAssetsRatio := debtToAssetsRatio o;
       debtToAssetsInterpretation := debtToAssetsInterpretation o;
       error := error o |}).

Definition setDebtToEquityInterpretation (v : string) : State -> State :=
  with_outcome (fun o =>
    {| currentRatio := currentRatio o;
       currentRatioInterpretation := currentRatioInterpretation o;
       quickRatio := quickRatio o;
       quickRatioInterpretation := quickRatioInterpretation o;
       debtToEquityRatio := debtToEquityRatio o;
       debtToEquityInterpretation := v;
       debtToAssetsRatio := debtToAssetsRatio o;
       debtToAssetsInterpretation := debtToAssetsInterpretation o;
       error := error o |}).

Definition setDebtToAssetsRatio (v : option string) : State -> State :=
  with_outcome (fun o =>
    {| currentRatio := currentRatio o;
       currentRatioInterpretation := currentRatioInterpretation o;
       quickRatio := quickRatio o;
       quickRatioInterpretation := quickRatioInterpretation o;
       debtToEquityRatio := debtToEquityRatio o;
       debtToEquityInterpretation := debtToEquityInterpretation o;
       debtToAssetsRatio := v;
       debtToAssetsInterpretation := debtToAssetsInterpretation o;
       error := error o |}).

Definition setDebtToAssetsInterpretation (v : string) : State -> State :=
  with_outcome (fun o =>
    {| currentRatio := currentRatio o;
       currentRatioInterpretation := currentRatioInterpretation o;
       quickRatio := quickRatio o;
       quickRatioInterpretation := quickRatioInterpretation o;
       debtToEquityRatio := debtToEquityRatio o;
       debtToEquityInterpretation := debtToEquityInterpretation o;
       debtToAssetsRatio := debtToAssetsRatio o;
       debtToAssetsInterpretation := v;
       error := error o |}).

Definition setError (v : string) : State -> State :=
  with_outcome (fun o =>
    {| currentRatio := currentRatio o;
       currentRatioInterpretation := currentRatioInterpretation o;
       quickRatio := quickRatio o;
       quickRatioInterpretation := quickRatioInterpretation o;
       debtToEquityRatio := debtToEquityRatio o;
       debtToEquityInterpretation := debtToEquityInterpretation o;
       debtToAssetsRatio := debtToAssetsRatio o;
       debtToAssetsInterpretation := debtToAssetsInterpretation o;
       error := v |}).

(** Sequencing of the handler's statements: [st |> f] is [f] run on [st]. *)
Notation "st |> f" := (f st) (at level 45, left associativity, only parsing).

(** ** [handleDisplayNumericInputChange]

    What is stored for a numeric field: the typed text without commas and
    without any character other than digits, [.] and [-]. *)

Fixpoint filter_chars (keep : ascii -> bool) (s : string) : string :=
  match s with
  | EmptyString => ""
  | String c r =>
      if keep c then String c (filter_chars keep r) else filter_chars keep r
  end.

Definition cleanedForStorage (inputVal : string) : string :=
  filter_chars (fun c => is_digit c || (code c =? 46) || (code c =? 45))
    (filter_chars (fun c => negb (code c =? 44)) inputVal).

(** ** [calculateRatios] *)

Definition validationMessage : string :=
  "Por favor, ingrese valores numéricos válidos en todos los campos.".

Definition calculateRatios (st0 : State) : State :=
  let st := st0 |> setError ""
                |> setCurrentRatio None
                |> setQuickRatio None
                |> setDebtToEquityRatio None
                |> setDebtToAssetsRatio None
                |> setCurrentRatioInterpretation ""
                |> setQuickRatioInterpretation ""
                |> setDebtToEquityInterpretation ""
                |> setDebtToAssetsInterpretation "" in
  let numCurrentAssets := parseFloat (currentAssets (form st0)) in
  let numCurrentLiabilities := parseFloat (currentLiabilities (form st0)) in
  let numTotalAssets := parseFloat (totalAssets (form st0)) in
  let numTotalLiabilities := parseFloat (totalLiabilities (form st0)) in
  let numShareholdersEquity := parseFloat (shareholdersEquity (form st0)) in
  let numInventory := parseFloat (inventory (form st0)) in
  if isNaN numCurrentAssets || isNaN numCurrentLiabilities
     || isNaN numTotalAssets || isNaN numTotalLiabilities
     || isNaN numShareholdersEquity || isNaN numInventory
  then st |> setError validationMessage
  else
    (* Current Ratio *)
    let st :=
      if strict_neqb numCurrentLiabilities lit_0 then
        let calculatedCurrentRatio :=
          div numCurrentAssets numCurrentLiabilities in
        st |> setCurrentRatio (Some (toFixed calculatedCurrentRatio 2))
           |> setCurrentRatioInterpretation
                (getCurrentRatioInterpretation (VNumber calculatedCurrentRatio))
      else
        st |> setCurrentRatio (Some "N/A")
           |> setCurrentRatioInterpretation "Pasivos Circulantes es cero" in
    (* Quick Ratio *)
    let st :=
      if strict_neqb numCurrentLiabilities lit_0 then
        let calculatedQuickRatio :=
          div (sub numCurrentAssets numInventory) numCurrentLiabilities in
        st |> setQuickRatio (Some (toFixed calculatedQuickRatio 2))
           |> setQuickRatioInterpretation
                (getQuickRatioInterpretation (VNumber calculatedQuickRatio))
      else
        st |> setQuickRatio (Some "N/A")
           |> setQuickRatioInterpretation "Pasivos Circulantes es cero" in
    (* Debt-to-Equity Ratio *)
    let st :=
      if strict_neqb numShareholdersEquity lit_0 then
        let calculatedDebtToEquityRatio :=
          div numTotalLiabilities numShareholdersEquity in
        st |> setDebtToEquityRatio (Some (toFixed calculatedDebtToEquityRatio 2))
           |> setDebtToEquityInterpretation
                (getDebtToEquityInterpretation
                   (VNumber calculatedDebtToEquityRatio))
      else
        st |> setDebtToEquityRatio (Some "N/A")
           |> setDebtToEquityInterpretation "Patrimonio Neto es cero" in
    (* Debt-to-Assets Ratio *)
    if strict_neqb numTotalAssets lit_0 then
      let calculatedDebtToAssetsRatio :=
        div numTotalLiabilities numTotalAssets in
      st |> setDebtToAssetsRatio (Some (toFixed calculatedDebtToAssetsRatio 2))
         |> setDebtToAssetsInterpretation
              (getDebtToAssetsInterpretation
                 (VNumber calculatedDebtToAssetsRatio))
    else
      st |> setDebtToAssetsRatio (Some "N/A")
         |> setDebtToAssetsInterpretation "Activos Totales es cero".

(** ** [handleClearForm] *)

Definition initialOutcome : Outcome :=
  {| currentRatio := None; currentRatioInterpretation := "";
     quickRatio := None; quickRatioInterpretation := "";
     debtToEquityRatio := None; debtToEquityInterpretation := "";
     debtToAssetsRatio := None; debtToAssetsInterpretation := "";
     error := "" |}.

Definition initialForm : Form :=
  {| companyTicker := ""; selectedCurrency := "USD"; reportDate := "";
     currentAssets := ""; currentLiabilities := ""; totalAssets := "";
     totalLiabilities := ""; shareholdersEquity := ""; inventory := "" |}.

Definition handleClearForm (_ : State) : State :=
  {| form := initialForm; outcome := initialOutcome |}.

(** A form with the six numeric fields filled in, as the input handler
    stores them. *)
Definition fill (ca cl inv ta tl se : string) : State :=
  {| form := {| companyTicker := ""; selectedCurrency := "USD";
                reportDate := "";
                currentAssets := cleanedForStorage ca;
                currentLiabilities := cleanedForStorage cl;
                totalAssets := cleanedForStorage ta;
                totalLiabilities := cleanedForStorage tl;
                shareholdersEquity := cleanedForStorage se;
                inventory := cleanedForStorage inv |};
     outcome := initialOutcome |}.

(** ** Vocabulary of the statements *)

(** The six parsed fields, named as the locals of [calculateRatios]. *)
Definition numCurrentAssets (st : State) : number :=
  parseFloat (currentAssets (form st)).
Definition numCurrentLiabilities (st : State) : number :=
  parseFloat (currentLiabilities (form st)).
Definition numTotalAssets (st : State) : number :=
  parseFloat (totalAssets (form st)).
Definition numTotalLiabilities (st : State) : number :=
  parseFloat (totalLiabilities (form st)).
Definition numShareholdersEquity (st : State) : number :=
  parseFloat (shareholdersEquity (form st)).
Definition numInventory (st : State) : number :=
  parseFloat (inventory (form st)).

Definition parsedFields (st : State) : list number :=
  [numCurrentAssets st; numCurrentLiabilities st; numTotalAssets st;
   numTotalLiabilities st; numShareholdersEquity st; numInventory st].

(** An input is accepted by the validation of [calculateRatios] when none
    of the six fields parses to NaN. *)
Definition valid (st : State) : Prop :=
  forallb (fun x => negb (isNaN x)) (parsedFields st) = true.

(** All six fields parse to finite numbers. *)
Definition allFinite (st : State) : Prop :=
  forallb isFinite (parsedFields st) = true.

(** The outcome of a failed validation: the message, and no result. *)
Definition rejectedOutcome : Outcome :=
  {| currentRatio := None; currentRatioInterpretation := "";
     quickRatio := None; quickRatioInterpretation := "";
     debtToEquityRatio := None; debtToEquityInterpretation := "";
     debtToAssetsRatio := None; debtToAssetsInterpretation := "";
     error := validationMessage |}.

(** One ratio cell and its interpretation cell, for a quotient [q] over the
    denominator [d]: what the branch of [calculateRatios] for it writes. *)
Definition ratioCell (d q : number) : option string :=
  if strict_neqb d lit_0 then Some (toFixed q 2) else Some "N/A".

Definition interpretationCell (classify : value -> string)
           (zeroMessage : string) (d q : number) : string :=
  if strict_neqb d lit_0 then classify (VNumber q) else zeroMessage.

(** The four raw quotients. *)
Definition rawCurrentRatio (st : State) : number :=
  div (numCurrentAssets st) (numCurrentLiabilities st).
Definition rawQuickRatio (st : State) : number :=
  div (sub (numCurrentAssets st) (numInventory st)) (numCurrentLiabilities st).
Definition rawDebtToEquityRatio (st : State) : number :=
  div (numTotalLiabilities st) (numShareholdersEquity st).
Definition rawDebtToAssetsRatio (st : State) : number :=
  div (numTotalLiabilities st) (numTotalAssets st).

(** The value a displayed ratio string denotes. *)
Definition displayedValue (q : number) : number := parseFloat (toFixed q 2).

(** A finite number whose magnitude is below 10^21, the range in which
    [toFixed] uses fixed notation (the test [toFixed] itself makes, on the
    exact value). *)
Definition fixedRange (q : number) : bool :=
  match q with
  | S754_zero _ => true
  | S754_finite _ m e => num_of m e <? 10 ^ 21 * den_of e
  | _ => false
  end.

(** A string with exactly two characters after a decimal point. *)
Definition twoDecimals (s : string) : Prop :=
  exists a b : string, s = a ++ "." ++ b /\ String.length b = 2%nat.

(** The threshold table of each ratio, row by row as the specification
    tabulates it: the condition of a row and its label. *)
Definition currentTable (r : number) : list (bool * string) :=
  [ (gtb r lit_2_0, Excelente);
    (geb r lit_1_5 && leb r lit_2_0, Bueno);
    (geb r lit_1_0 && ltb r lit_1_5, Regular);
    (geb r lit_0_5 && ltb r lit_1_0, Malo);
    (ltb r lit_0_5, Pesimo) ].

Definition quickTable (r : number) : list (bool * string) :=
  [ (gtb r lit_1_5, Excelente);
    (geb r lit_1_0 && leb r lit_1_5, Bueno);
    (geb r lit_0_7 && ltb r lit_1_0, Regular);
    (geb r lit_0_3 && ltb r lit_0_7, Malo);
    (ltb r lit_0_3, Pesimo) ].

Definition debtToEquityTable (r : number) : list (bool * string) :=
  [ (ltb r lit_0_5, Excelente);
    (geb r lit_0_5 && leb r lit_1_0, Bueno);
    (gtb r lit_1_0 && leb r lit_2_0, Regular);
    (gtb r lit_2_0 && leb r lit_5_0, Malo);
    (gtb r lit_5_0, Pesimo) ].

Definition debtToAssetsTable (r : number) : list (bool * string) :=
  [ (ltb r lit_0_30, Excelente);
    (geb r lit_0_30 && leb r lit_0_50, Bueno);
    (gtb r lit_0_50 && leb r lit_0_70, Regular);
    (gtb r lit_0_70 && leb r lit_0_90, Malo);
    (gtb r lit_0_90, Pesimo) ].

(** [out] is one of the five labels, the row of [out] holds and no other
    row does. *)
Definition selects (table : list (bool * string)) (out : string) : Prop :=
  In out labels
  /\ forall (b : bool) (l : string), In (b, l) table -> (b = true <-> l = out).

(** ** Concrete forms used as examples *)

(** 310 digits: a one followed by 309 zeros *)
Definition overflowing : string := String "1" (zeros 309).

(** 5e-324 written without exponent: 323 zeros after the point, then 5 *)
Definition tiny : string := "0." ++ zeros 323 ++ "5".

Definition form_quick_070 : State := fill "100" "100" "30" "500" "400" "100".
Definition form_current_150 : State := fill "150" "100" "30" "500" "400" "100".
Definition form_debt_250_100 : State := fill "1" "1" "0" "1" "250" "100".
Definition form_debt_400_500 : State := fill "1" "1" "0" "500" "400" "1".
Definition form_overflow : State := fill overflowing "1" "0" "1" "1" "1".
Definition form_rounding : State := fill "1.499" "1" "0" "1" "1" "1".
Definition form_underflow : State := fill "1" "1" "0" "1" tiny "-2".
Definition form_negative_equity : State := fill "1" "1" "0" "1" "900" "-3".
Definition form_zero_liabilities : State := fill "10" "0" "3" "50" "20" "0".

(** The same form as [form_quick_070], with results of an earlier run left
    in the outcome cells. *)
Definition form_quick_070_stale : State :=
  {| form := form form_quick_070;
     outcome := outcome (calculateRatios form_zero_liabilities) |}.

(** ** [getCurrencySymbol] *)

Definition getCurrencySymbol (currencyCode : string) : string :=
  if (currencyCode =? "USD")%string then "$"
  else if (currencyCode =? "MXN")%string then "MXN$"
  else if (currencyCode =? "EUR")%string then "€"
  else if (currencyCode =? "JPY")%string then "¥"
  else if (currencyCode =? "GBP")%string then "£"
  else if (currencyCode =? "CAD")%string then "C$"
  else if (currencyCode =? "AUD")%string then "A$"
  else if (currencyCode =? "CHF")%string then "CHF"
  else if (currencyCode =? "CNY")%string then "¥"
  else if (currencyCode =? "INR")%string then "₹"
  else if (currencyCode =? "BRL")%string then "R$"
  else if (currencyCode =? "RUB")%string then "₽"
  else if (currencyCode =? "ZAR")%string then "R"
  else "".

(** The [value]s of the options of the currency selector. *)
Definition currencyOptions : list string :=
  ["USD"; "MXN"; "EUR"; "JPY"; "GBP"; "CAD"; "AUD"; "CHF"; "CNY"; "INR";
   "BRL"; "RUB"; "ZAR"].

(** ** Form setters and the input handlers *)

Definition with_form (f : Form -> Form) (st : State) : State :=
  {| form := f (form st); outcome := outcome st |}.

Definition setCompanyTicker (v : string) : State -> State :=
  with_form (fun f =>
    {| companyTicker := v; selectedCurrency := selectedCurrency f;
       reportDate := reportDate f; currentAssets := currentAssets f;
       currentLiabilities := currentLiabilities f;
       totalAssets := totalAssets f; totalLiabilities := totalLiabilities f;
       shareholdersEquity := shareholdersEquity f;
       inventory := inventory f |}).

Definition setSelectedCurrency (v : string) : State -> State :=
  with_form (fun f =>
    {| companyTicker := companyTicker f; selectedCurrency := v;
       reportDate := reportDate f; currentAssets := currentAssets f;
       currentLiabilities := currentLiabilities f;
       totalAssets := totalAssets f; totalLiabilities := totalLiabilities f;
       shareholdersEquity := shareholdersEquity f;
       inventory := inventory f |}).

Definition setReportDate (v : string) : State -> State :=
  with_form (fun f =>
    {| companyTicker := companyTicker f;
       selectedCurrency := selectedCurrency f;
       reportDate := v; currentAssets := currentAssets f;
       currentLiabilities := currentLiabilities f;
       totalAssets := totalAssets f; totalLiabilities := totalLiabilities f;
       shareholdersEquity := shareholdersEquity f;
       inventory := inventory f |}).

Definition setCurrentAssets (v : string) : State -> State :=
  with_form (fun f =>
    {| companyTicker := companyTicker f;
       selectedCurrency := selectedCurrency f;
       reportDate := reportDate f; currentAssets := v;
       currentLiabilities := currentLiabilities f;
       totalAssets := totalAssets f; totalLiabilities := totalLiabilities f;
       shareholdersEquity := shareholdersEquity f;
       inventory := inventory f |}).

Definition setCurrentLiabilities (v : string) : State -> State :=
  with_form (fun f =>
    {| companyTicker := companyTicker f;
       selectedCurrency := selectedCurrency f;
       reportDate := reportDate f; currentAssets := currentAssets f;
       currentLiabilities := v;
       totalAssets := totalAssets f; totalLiabilities := totalLiabilities f;
       shareholdersEquity := shareholdersEquity f;
       inventory := inventory f |}).

Definition setTotalAssets (v : string) : State -> State :=
  with_form (fun f =>
    {| companyTicker := companyTicker f;
       selectedCurrency := selectedCurrency f;
       reportDate := reportDate f; currentAssets := currentAssets f;
       currentLiabilities := currentLiabilities f;
       totalAssets := v; totalLiabilities := totalLiabilities f;
       shareholdersEquity := shareholdersEquity f;
       inventory := inventory f |}).

Definition setTotalLiabilities (v : string) : State -> State :=
  with_form (fun f =>
    {| companyTicker := companyTicker f;
       selectedCurrency := selectedCurrency f;
       reportDate := reportDate f; currentAssets := currentAssets f;
       currentLiabilities := currentLiabilities f;
       totalAssets := totalAssets f; totalLiabilities := v;
       shareholdersEquity := shareholdersEquity f;
       inventory := inventory f |}).

Definition setShareholdersEquity (v : string) : State -> State :=
  with_form (fun f =>
    {| companyTicker := companyTicker f;
       selectedCurrency := selectedCurrency f;
       reportDate := reportDate f; currentAssets := currentAssets f;
       currentLiabilities := currentLiabilities f;
       totalAssets := totalAssets f; totalLiabilities := totalLiabilities f;
       shareholdersEquity := v;
       inventory := inventory f |}).

Definition setInventory (v : string) : State -> State :=
  with_form (fun f =>
    {| companyTicker := companyTicker f;
       selectedCurrency := selectedCurrency f;
       reportDate := reportDate f; currentAssets := currentAssets f;
       currentLiabilities := currentLiabilities f;
       totalAssets := totalAssets f; totalLiabilities := totalLiabilities f;
       shareholdersEquity := shareholdersEquity f;
       inventory := v |}).

(** [handleDisplayNumericInputChange(e, setter)], with [inputVal] the value
    of the event target. *)
Definition handleDisplayNumericInputChange (inputVal : string)
           (setter : string -> State -> State) : State -> State :=
  setter (cleanedForStorage inputVal).

Definition handleDateInputChange (inputVal : string) : State -> State :=
  setReportDate inputVal.

(** [handlePrint] copies the rendered results into a hidden frame and prints
    it; it calls no state setter. *)
Definition handlePrint (st : State) : State := st.

(** ** The component as a transition system *)

Inductive NumericField : Type :=
| CurrentAssets
| CurrentLiabilities
| Inventory
| TotalAssets
| TotalLiabilities
| ShareholdersEquity.

Definition setterOf (fld : NumericField) : string -> State -> State :=
  match fld with
  | CurrentAssets => setCurrentAssets
  | CurrentLiabilities => setCurrentLiabilities
  | Inventory => setInventory
  | TotalAssets => setTotalAssets
  | TotalLiabilities => setTotalLiabilities
  | ShareholdersEquity => setShareholdersEquity
  end.

Definition fieldOf (fld : NumericField) (st : State) : string :=
  match fld with
  | CurrentAssets => currentAssets (form st)
  | CurrentLiabilities => currentLiabilities (form st)
  | Inventory => inventory (form st)
  | TotalAssets => totalAssets (form st)
  | TotalLiabilities => totalLiabilities (form st)
  | ShareholdersEquity => shareholdersEquity (form st)
  end.

Definition numericFields : list NumericField :=
  [CurrentAssets; CurrentLiabilities; Inventory; TotalAssets;
   TotalLiabilities; ShareholdersEquity].

(** What the user can do: change an input (the event carries the value of
    the event target) or press one of the buttons. *)
Inductive Event : Type :=
| ChangeTicker (value : string)
| ChangeCurrency (value : string)
| ChangeDate (value : string)
| ChangeNumeric (fld : NumericField) (value : string)
| ClickCalculate
| ClickClear
| ClickPrint.

Section Platform.

(** [String.prototype.toUpperCase] *)
Variable toUpperCase : string -> string.

Definition step (st : State) (ev : Event) : State :=
  match ev with
  | ChangeTicker v => setCompanyTicker (toUpperCase v) st
  | ChangeCurrency v => setSelectedCurrency v st
  | ChangeDate v => handleDateInputChange v st
  | ChangeNumeric fld v => handleDisplayNumericInputChange v (setterOf fld) st
  | ClickCalculate => calculateRatios st
  | ClickClear => handleClearForm st
  | ClickPrint => handlePrint st
  end.

Definition run (evs : list Event) (st : State) : State :=
  fold_left step evs st.

End Platform.

(** The initial values of the [useState] cells. *)
Definition initialState : State :=
  {| form := initialForm; outcome := initialOutcome |}.

(** ** What is rendered *)

(** A string is truthy unless it is empty. *)
Definition truthy (s : string) : bool := negb (s =? "")%string.

(** [error && ...]: the error box *)
Definition showsError (st : State) : bool := truthy (error (outcome st)).

(** [currentRatio !== null && !error && ...]: the results block *)
Definition showsResults (st : State) : bool :=
  match currentRatio (outcome st) with
  | Some _ => negb (truthy (error (outcome st)))
  | None => false
  end.

(** ** [formatDisplayNumber] *)

Fixpoint includes_char (c : ascii) (s : string) : bool :=
  match s with
  | EmptyString => false
  | String d r => Ascii.eqb d c || includes_char c r
  end.

Section Locale.

(** [num.toLocaleString('en-US', { minimumFractionDigits, maximumFractionDigits })] *)
Variable toLocaleString : number -> nat -> nat -> string.

Definition formatDisplayNumber (numValue : string) : string :=
  let numString := numValue in
  if (numString =? "")%string then ""
  else
    let num := parseFloat numString in
    if isNaN num then numString
    else
      let hasCentsExplicitly := includes_char "." numString in
      toLocaleString num (if hasCentsExplicitly then 2%nat else 0%nat) 2%nat.

End Locale.

(** ** [formatDateForDisplay] *)

(** [s.split(sep)] for a separator of one character *)
Fixpoint split_on (sep : ascii) (s : string) : list string :=
  match s with
  | EmptyString => [""]
  | String c r =>
      if Ascii.eqb c sep then "" :: split_on sep r
      else
        match split_on sep r with
        | h :: t => String c h :: t
        | [] => [String c ""]
        end
  end.

Definition monthNames : list (string * string) :=
  [("ene", "01"); ("feb", "02"); ("mar", "03"); ("abr", "04");
   ("may", "05"); ("jun", "06"); ("jul", "07"); ("ago", "08");
   ("sep", "09"); ("oct", "10"); ("nov", "11"); ("dic", "12")].

(** The properties an object literal inherits from [Object.prototype]; each
    is a function or an object, hence truthy. *)
Definition inheritedKeys : list string :=
  ["constructor"; "hasOwnProperty"; "isPrototypeOf"; "propertyIsEnumerable";
   "toLocaleString"; "toString"; "valueOf"; "__proto__";
   "__defineGetter__"; "__defineSetter__"; "__lookupGetter__";
   "__lookupSetter__"].

Fixpoint lookup (key : string) (l : list (string * string)) : option string :=
  match l with
  | [] => None
  | (k, v) :: l' => if (k =? key)%string then Some v else lookup key l'
  end.

(** Whether [monthNames[key]] is truthy. *)
Definition monthNum_truthy (key : string) : bool :=
  match lookup key monthNames with
  | Some v => truthy v
  | None => existsb (fun k => (k =? key)%string) inheritedKeys
  end.

Section DatePlatform.

(** [String.prototype.toLowerCase] *)
Variable toLowerCase : string -> string.

(** The fallback of [formatDateForDisplay]: what it returns once the text
    is handed to [new Date]; it depends on the date parser and on the time
    zone of the browser. *)
Variable dateFallback : string -> string.

Definition formatDateForDisplay (dateString : string) : string :=
  if negb (truthy dateString) then ""
  else
    match split_on "-" dateString with
    | [day; monthStr; year] =>
        if monthNum_truthy (toLowerCase monthStr)
        then day ++ "-" ++ monthStr ++ "-" ++ year
        else dateFallback dateString
    | _ => dateFallback dateString
    end.

End DatePlatform.

(** ** Vocabulary of the further statements *)

(** The characters a stored numeric field may contain. *)
Definition storable (c : ascii) : bool :=
  is_digit c || (code c =? 46) || (code c =? 45).

Fixpoint all_chars (p : ascii -> bool) (s : string) : bool :=
  match s with
  | EmptyString => true
  | String c r => p c && all_chars p r
  end.

(** The text begins with a digit, or with a point and a digit. *)
Definition startsDecimal (s : string) : bool :=
  match s with
  | String c r =>
      is_digit c
      || (Ascii.eqb c "."
          && match r with
             | String d _ => is_digit d
             | EmptyString => false
             end)
  | EmptyString => false
  end.

(** After leading white space and an optional sign, the text begins with
    [Infinity] or with a decimal number. *)
Definition beginsWithNumber (s : string) : bool :=
  let '(_, s1) := read_sign (trim_start s) in
  prefix "Infinity" s1 || startsDecimal s1.

(** The same for a stored field: an optional minus, then a decimal
    number. *)
Definition storedBeginsWithNumber (s : string) : bool :=
  match s with
  | String "-" r => startsDecimal r
  | _ => startsDecimal s
  end.

(** The text is empty or begins with a character that cannot continue a
    number with a fraction: not a digit and not an exponent indicator. *)
Definition endsNumber (rest : string) : bool :=
  match rest with
  | EmptyString => true
  | String c _ =>
      negb (is_digit c) && negb (Ascii.eqb c "e") && negb (Ascii.eqb c "E")
  end.

(** The five labels from worst to best, as ranks 0 to 4. *)
Definition labelRank (l : string) : nat :=
  if (l =? Excelente)%string then 4
  else if (l =? Bueno)%string then 3
  else if (l =? Regular)%string then 2
  else if (l =? Malo)%string then 1
  else 0.

Definition isZero (x : number) : bool :=
  match x with
  | S754_zero _ => true
  | _ => false
  end.

(** The outcome cells fit together: the error is empty or the validation
    message; with an error no cell holds a result; without one the four
    ratio cells are all empty or all filled. *)
Definition coherent (o : Outcome) : Prop :=
  (error o = validationMessage /\ o = rejectedOutcome)
  \/ (error o = ""
      /\ ((currentRatio o = None /\ quickRatio o = None
           /\ debtToEquityRatio o = None /\ debtToAssetsRatio o = None)
          \/ (currentRatio o <> None /\ quickRatio o <> None
              /\ debtToEquityRatio o <> None
              /\ debtToAssetsRatio o <> None))).

(** ** The outcome of [calculateRatios], cell by cell *)

Lemma valid_no_NaN (st : State) :
  valid st ->
  isNaN (numCurrentAssets st) || isNaN (numCurrentLiabilities st)
  || isNaN (numTotalAssets st) || isNaN (numTotalLiabilities st)
  || isNaN (numShareholdersEquity st) || isNaN (numInventory st) = false.
Proof.
  unfold valid, parsedFields; cbn [forallb].
  destruct (isNaN (numCurrentAssets st)), (isNaN (numCurrentLiabilities st)),
    (isNaN (numTotalAssets st)), (isNaN (numTotalLiabilities st)),
    (isNaN (numShareholdersEquity st)), (isNaN (numInventory st));
    cbn; congruence.
Qed.

Lemma invalid_some_NaN (st : State) :
  ~ valid st ->
  isNaN (numCurrentAssets st) || isNaN (numCurrentLiabilities st)
  || isNaN (numTotalAssets st) || isNaN (numTotalLiabilities st)
  || isNaN (numShareholdersEquity st) || isNaN (numInventory st) = true.
Proof.
  unfold valid, parsedFields; cbn [forallb].
  destruct (isNaN (numCurrentAssets st)), (isNaN (numCurrentLiabilities st)),
    (isNaN (numTotalAssets st)), (isNaN (numTotalLiabilities st)),
    (isNaN (numShareholdersEquity st)), (isNaN (numInventory st));
    cbn; intros H; try reflexivity; exfalso; apply H; reflexivity.
Qed.

Lemma valid_dec (st : State) : {valid st} + {~ valid st}.
Proof. unfold valid; decide equality; decide equality. Defined.

(** Unfolds the handler on a state [{| form := f; outcome := o |}], leaving
    its tests in place and its setters folded. *)
Ltac open_handler := cbv beta zeta iota delta [calculateRatios form].

(** Runs the setters once the tests are decided. *)
Ltac run_setters :=
  cbv [setError setCurrentRatio setQuickRatio
       setDebtToEquityRatio setDebtToAssetsRatio
       setCurrentRatioInterpretation setQuickRatioInterpretation
       setDebtToEquityInterpretation setDebtToAssetsInterpretation
       with_outcome outcome form currentRatio currentRatioInterpretation
       quickRatio quickRatioInterpretation debtToEquityRatio
       debtToEquityInterpretation debtToAssetsRatio
       debtToAssetsInterpretation error].

Ltac decide_tests :=
  repeat match goal with
    | |- context [if ?b then _ else _] => destruct b
    end.

Lemma calculateRatios_form (st : State) :
  form (calculateRatios st) = form st.
Proof.
  destruct st as [f o]; open_handler.
  decide_tests; reflexivity.
Qed.

Lemma calculateRatios_invalid (st : State) :
  ~ valid st -> outcome (calculateRatios st) = rejectedOutcome.
Proof.
  intros H; apply invalid_some_NaN in H.
  unfold numCurrentAssets, numCurrentLiabilities, numTotalAssets,
    numTotalLiabilities, numShareholdersEquity, numInventory in H.
  destruct st as [f o]; cbv [form] in H; open_handler.
  rewrite H; reflexivity.
Qed.

Lemma calculateRatios_valid (st : State) :
  valid st ->
  outcome (calculateRatios st) =
  {| currentRatio :=
       ratioCell (numCurrentLiabilities st) (rawCurrentRatio st);
     currentRatioInterpretation :=
       interpretationCell getCurrentRatioInterpretation
         "Pasivos Circulantes es cero"
         (numCurrentLiabilities st) (rawCurrentRatio st);
     quickRatio :=
       ratioCell (numCurrentLiabilities st) (rawQuickRatio st);
     quickRatioInterpretation :=
       interpretationCell getQuickRatioInterpretation
         "Pasivos Circulantes es cero"
         (numCurrentLiabilities st) (rawQuickRatio st);
     debtToEquityRatio :=
       ratioCell (numShareholdersEquity st) (rawDebtToEquityRatio st);
     debtToEquityInterpretation :=
       interpretationCell getDebtToEquityInterpretation
         "Patrimonio Neto es cero"
         (numShareholdersEquity st) (rawDebtToEquityRatio st);
     debtToAssetsRatio :=
       ratioCell (numTotalAssets st) (rawDebtToAssetsRatio st);
     debtToAssetsInterpretation :=
       interpretationCell getDebtToAssetsInterpretation
         "Activos Totales es cero"
         (numTotalAssets st) (rawDebtToAssetsRatio st);
     error := "" |}.
Proof.
  intros H; apply valid_no_NaN in H.
  unfold ratioCell, interpretationCell, rawCurrentRatio, rawQuickRatio,
    rawDebtToEquityRatio, rawDebtToAssetsRatio.
  unfold numCurrentAssets, numCurrentLiabilities, numTotalAssets,
    numTotalLiabilities, numShareholdersEquity, numInventory in *.
  destruct st as [f o]; cbv [form] in *; open_handler.
  rewrite H.
  destruct (strict_neqb (parseFloat (currentLiabilities f)) lit_0),
    (strict_neqb (parseFloat (shareholdersEquity f)) lit_0),
    (strict_neqb (parseFloat (totalAssets f)) lit_0);
    run_setters; reflexivity.
Qed.

Lemma state_eq (st1 st2 : State) :
  form st1 = form st2 -> outcome st1 = outcome st2 -> st1 = st2.
Proof. destruct st1, st2; cbn; intros -> ->; reflexivity. Qed.

Lemma valid_form (st1 st2 : State) :
  form st1 = form st2 -> valid st1 -> valid st2.
Proof.
  unfold valid, parsedFields, numCurrentAssets, numCurrentLiabilities,
    numTotalAssets, numTotalLiabilities, numShareholdersEquity, numInventory.
  intros ->; trivial.
Qed.

(** ** Quick Ratio at 100, 30, 100 *)

(** C1, as stated, fails: with current assets 100, inventory 30 and current
    liabilities 100 the Quick Ratio is shown as 0.70 and its label is not
    "Bueno" (Good). *)
Lemma quick_ratio_070_is_not_good :
  valid form_quick_070
  /\ numCurrentAssets form_quick_070 = of_decimal false 100 0
  /\ numInventory form_quick_070 = of_decimal false 30 0
  /\ numCurrentLiabilities form_quick_070 = of_decimal false 100 0
  /\ quickRatio (outcome (calculateRatios form_quick_070)) = Some "0.70"
  /\ quickRatioInterpretation (outcome (calculateRatios form_quick_070))
     <> Bueno.
Proof. vm_compute; repeat split; discriminate. Qed.

(** C1, amended: for every accepted input with current assets 100,
    inventory 30 and current liabilities 100, the Quick Ratio is
    (100 - 30) / 100, the Number 0.7, shown as 0.70, and its label is
    "Regular" (Fair): 0.7 is the inclusive lower edge of that bucket. *)
Theorem quick_ratio_070_is_regular (st : State) :
  valid st ->
  numCurrentAssets st = of_decimal false 100 0 ->
  numInventory st = of_decimal false 30 0 ->
  numCurrentLiabilities st = of_decimal false 100 0 ->
  rawQuickRatio st = lit_0_7
  /\ quickRatio (outcome (calculateRatios st)) = Some "0.70"
  /\ quickRatioInterpretation (outcome (calculateRatios st)) = Regular.
Proof.
  intros Hv Ha Hi Hl.
  rewrite (calculateRatios_valid st Hv); cbn [quickRatio quickRatioInterpretation].
  unfold rawQuickRatio; rewrite Ha, Hi, Hl.
  repeat split; vm_compute; reflexivity.
Qed.

Lemma quick_ratio_070_is_regular_witness :
  rawQuickRatio form_quick_070 = lit_0_7
  /\ quickRatio (outcome (calculateRatios form_quick_070)) = Some "0.70"
  /\ quickRatioInterpretation (outcome (calculateRatios form_quick_070))
     = Regular.
Proof.
  apply (quick_ratio_070_is_regular form_quick_070); vm_compute; reflexivity.
Defined.

(** ** Validation *)

(** C2, as stated, fails: a field of 310 digits parses to Infinity, which is
    not a finite number, and the input is not rejected: no message is set and
    the ratio formulas run on Infinity. *)
Lemma infinite_field_is_not_rejected :
  cleanedForStorage overflowing = overflowing
  /\ numCurrentAssets form_overflow = Infinity
  /\ ~ allFinite form_overflow
  /\ outcome (calculateRatios form_overflow) <> rejectedOutcome
  /\ error (outcome (calculateRatios form_overflow)) = ""
  /\ currentRatio (outcome (calculateRatios form_overflow)) = Some "Infinity".
Proof. vm_compute; repeat split; discriminate. Qed.

(** C2, amended: [calculateRatios] ends with the validation message and no
    ratio result if and only if at least one of the six fields parses to NaN
    (does not start with a number); a field that parses to Infinity is
    accepted. *)
Theorem rejected_iff_some_field_is_NaN (st : State) :
  outcome (calculateRatios st) = rejectedOutcome
  <-> Exists (fun x => isNaN x = true) (parsedFields st).
Proof.
  split.
  - intros H. destruct (valid_dec st) as [Hv | Hv].
    + rewrite (calculateRatios_valid st Hv) in H.
      apply (f_equal error) in H; cbn in H; discriminate.
    + apply invalid_some_NaN in Hv.
      unfold parsedFields.
      repeat (apply orb_true_iff in Hv; destruct Hv as [Hv | Hv]);
        repeat (first [ apply Exists_cons_hd; assumption
                      | apply Exists_cons_tl ]).
  - intros H. apply calculateRatios_invalid. intros Hv.
    unfold valid in Hv. rewrite forallb_forall in Hv.
    apply Exists_exists in H. destruct H as [x [Hin Hx]].
    specialize (Hv x Hin). rewrite Hx in Hv. discriminate.
Qed.

(** ** Zero denominators *)

Lemma ratioCell_zero (d q : number) :
  strict_neqb d lit_0 = false -> ratioCell d q = Some "N/A".
Proof. unfold ratioCell; intros ->; reflexivity. Qed.

Lemma ratioCell_nonzero (d q : number) :
  strict_neqb d lit_0 = true -> ratioCell d q = Some (toFixed q 2).
Proof. unfold ratioCell; intros ->; reflexivity. Qed.

Lemma interpretationCell_zero classify msg (d q : number) :
  strict_neqb d lit_0 = false -> interpretationCell classify msg d q = msg.
Proof. unfold interpretationCell; intros ->; reflexivity. Qed.

Lemma interpretationCell_nonzero classify msg (d q : number) :
  strict_neqb d lit_0 = true ->
  interpretationCell classify msg d q = classify (VNumber q).
Proof. unfold interpretationCell; intros ->; reflexivity. Qed.

(** C4: on an accepted input no zero denominator raises the validation
    message, and each ratio depends on its own denominator only.  When
    current liabilities are zero, the Current and the Quick Ratio are "N/A"
    with the message "Pasivos Circulantes es cero"; when shareholders' equity
    is zero, Debt-to-Equity is "N/A" with "Patrimonio Neto es cero"; when
    total assets are zero, Debt-to-Assets is "N/A" with "Activos Totales es
    cero"; a ratio whose own denominator is not zero is the [toFixed(2)] of
    its quotient, classified by its own function. *)
Theorem zero_denominators_are_per_ratio (st : State) :
  valid st ->
  let o := outcome (calculateRatios st) in
  error o = ""
  /\ (strict_neqb (numCurrentLiabilities st) lit_0 = false ->
      currentRatio o = Some "N/A"
      /\ currentRatioInterpretation o = "Pasivos Circulantes es cero"
      /\ quickRatio o = Some "N/A"
      /\ quickRatioInterpretation o = "Pasivos Circulantes es cero")
  /\ (strict_neqb (numCurrentLiabilities st) lit_0 = true ->
      currentRatio o = Some (toFixed (rawCurrentRatio st) 2)
      /\ currentRatioInterpretation o
         = getCurrentRatioInterpretation (VNumber (rawCurrentRatio st))
      /\ quickRatio o = Some (toFixed (rawQuickRatio st) 2)
      /\ quickRatioInterpretation o
         = getQuickRatioInterpretation (VNumber (rawQuickRatio st)))
  /\ (strict_neqb (numShareholdersEquity st) lit_0 = false ->
      debtToEquityRatio o = Some "N/A"
      /\ debtToEquityInterpretation o = "Patrimonio Neto es cero")
  /\ (strict_neqb (numShareholdersEquity st) lit_0 = true ->
      debtToEquityRatio o = Some (toFixed (rawDebtToEquityRatio st) 2)
      /\ debtToEquityInterpretation o
         = getDebtToEquityInterpretation (VNumber (rawDebtToEquityRatio st)))
  /\ (strict_neqb (numTotalAssets st) lit_0 = false ->
      debtToAssetsRatio o = Some "N/A"
      /\ debtToAssetsInterpretation o = "Activos Totales es cero")
  /\ (strict_neqb (numTotalAssets st) lit_0 = true ->
      debtToAssetsRatio o = Some (toFixed (rawDebtToAssetsRatio st) 2)
      /\ debtToAssetsInterpretation o
         = getDebtToAssetsInterpretation (VNumber (rawDebtToAssetsRatio st))).
Proof.
  intros Hv o; subst o.
  rewrite (calculateRatios_valid st Hv).
  cbn [error currentRatio currentRatioInterpretation quickRatio
       quickRatioInterpretation debtToEquityRatio debtToEquityInterpretation
       debtToAssetsRatio debtToAssetsInterpretation].
  split; [reflexivity |].
  repeat apply conj; intros H;
    rewrite ?(ratioCell_zero _ _ H), ?(ratioCell_nonzero _ _ H),
      ?(interpretationCell_zero _ _ _ _ H),
      ?(interpretationCell_nonzero _ _ _ _ H);
    repeat split.
Qed.

Lemma zero_denominators_are_per_ratio_witness :
  let o := outcome (calculateRatios form_zero_liabilities) in
  currentRatio o = Some "N/A"
  /\ quickRatio o = Some "N/A"
  /\ debtToEquityRatio o = Some "N/A"
  /\ debtToAssetsRatio o = Some "0.40"
  /\ debtToAssetsInterpretation o = Bueno.
Proof.
  assert (Hv : valid form_zero_liabilities) by (vm_compute; reflexivity).
  destruct (zero_denominators_are_per_ratio form_zero_liabilities Hv)
    as (_ & Hcl & _ & Hse & _ & _ & Hta).
  destruct Hcl as (H1 & _ & H2 & _); [vm_compute; reflexivity |].
  destruct Hse as (H3 & _); [vm_compute; reflexivity |].
  destruct Hta as (H4 & H5); [vm_compute; reflexivity |].
  cbv zeta. rewrite H1, H2, H3, H4, H5.
  repeat split; vm_compute; reflexivity.
Defined.

(** ** Boundary and table examples *)

Lemma quotient_not_by_zero (x d q : number) :
  div x d = q -> isFinite q = true -> strict_neqb d lit_0 = true.
Proof.
  intros <- H.
  destruct d as [sd | [] | | [] md ed]; try reflexivity.
  destruct x; cbn in H; discriminate.
Qed.

(** C5: for every accepted input whose Current Ratio is exactly 1.5, the
    value is shown as 1.50 and classified "Bueno" (Good), not "Regular"
    (Fair). *)
Theorem current_ratio_150_is_good (st : State) :
  valid st ->
  rawCurrentRatio st = lit_1_5 ->
  currentRatio (outcome (calculateRatios st)) = Some "1.50"
  /\ currentRatioInterpretation (outcome (calculateRatios st)) = Bueno
  /\ currentRatioInterpretation (outcome (calculateRatios st)) <> Regular.
Proof.
  intros Hv Hq.
  assert (Hd : strict_neqb (numCurrentLiabilities st) lit_0 = true)
    by (apply (quotient_not_by_zero _ _ _ Hq); reflexivity).
  rewrite (calculateRatios_valid st Hv).
  cbn [currentRatio currentRatioInterpretation].
  rewrite (ratioCell_nonzero _ _ Hd), (interpretationCell_nonzero _ _ _ _ Hd), Hq.
  split; [vm_compute; reflexivity |].
  split; [vm_compute; reflexivity | vm_compute; discriminate].
Qed.

Lemma current_ratio_150_is_good_witness :
  numCurrentAssets form_current_150 = of_decimal false 150 0
  /\ numCurrentLiabilities form_current_150 = of_decimal false 100 0
  /\ currentRatio (outcome (calculateRatios form_current_150)) = Some "1.50"
  /\ currentRatioInterpretation (outcome (calculateRatios form_current_150))
     = Bueno
  /\ currentRatioInterpretation (outcome (calculateRatios form_current_150))
     <> Regular.
Proof.
  split; [vm_compute; reflexivity |].
  split; [vm_compute; reflexivity |].
  apply (current_ratio_150_is_good form_current_150); vm_compute; reflexivity.
Defined.

(** C6: for every accepted input with total liabilities 250 and
    shareholders' equity 100, Debt-to-Equity is 2.5, shown as 2.50, and is
    classified "Malo" (Poor), the bucket (2.0, 5.0]. *)
Theorem debt_to_equity_250_100_is_poor (st : State) :
  valid st ->
  numTotalLiabilities st = of_decimal false 250 0 ->
  numShareholdersEquity st = of_decimal false 100 0 ->
  rawDebtToEquityRatio st = of_decimal false 25 (-1)
  /\ debtToEquityRatio (outcome (calculateRatios st)) = Some "2.50"
  /\ debtToEquityInterpretation (outcome (calculateRatios st)) = Malo
  /\ gtb (rawDebtToEquityRatio st) lit_2_0 = true
  /\ leb (rawDebtToEquityRatio st) lit_5_0 = true.
Proof.
  intros Hv Hl He.
  rewrite (calculateRatios_valid st Hv).
  cbn [debtToEquityRatio debtToEquityInterpretation].
  unfold rawDebtToEquityRatio; rewrite Hl, He.
  repeat split; vm_compute; reflexivity.
Qed.

Lemma debt_to_equity_250_100_is_poor_witness :
  debtToEquityRatio (outcome (calculateRatios form_debt_250_100)) = Some "2.50"
  /\ debtToEquityInterpretation (outcome (calculateRatios form_debt_250_100))
     = Malo.
Proof.
  destruct (debt_to_equity_250_100_is_poor form_debt_250_100)
    as (_ & H1 & H2 & _); try (vm_compute; reflexivity).
  split; assumption.
Defined.

(** C7: for every accepted input with total liabilities 400 and total
    assets 500, Debt-to-Assets is 0.8, shown as 0.80, and is classified
    "Malo" (Poor), the bucket (0.70, 0.90]. *)
Theorem debt_to_assets_400_500_is_poor (st : State) :
  valid st ->
  numTotalLiabilities st = of_decimal false 400 0 ->
  numTotalAssets st = of_decimal false 500 0 ->
  rawDebtToAssetsRatio st = of_decimal false 8 (-1)
  /\ debtToAssetsRatio (outcome (calculateRatios st)) = Some "0.80"
  /\ debtToAssetsInterpretation (outcome (calculateRatios st)) = Malo
  /\ gtb (rawDebtToAssetsRatio st) lit_0_70 = true
  /\ leb (rawDebtToAssetsRatio st) lit_0_90 = true.
Proof.
  intros Hv Hl Ha.
  rewrite (calculateRatios_valid st Hv).
  cbn [debtToAssetsRatio debtToAssetsInterpretation].
  unfold rawDebtToAssetsRatio; rewrite Hl, Ha.
  repeat split; vm_compute; reflexivity.
Qed.

Lemma debt_to_assets_400_500_is_poor_witness :
  debtToAssetsRatio (outcome (calculateRatios form_debt_400_500)) = Some "0.80"
  /\ debtToAssetsInterpretation (outcome (calculateRatios form_debt_400_500))
     = Malo.
Proof.
  destruct (debt_to_assets_400_500_is_poor form_debt_400_500)
    as (_ & H1 & H2 & _); try (vm_compute; reflexivity).
  split; assumption.
Defined.

(** ** Determinism and statelessness *)

(** C8: [calculateRatios] is a function of the form fields alone: two runs
    on the same fields end in the same state, whatever earlier results the
    outcome cells held before each run. *)
Theorem calculateRatios_stateless (st1 st2 : State) :
  form st1 = form st2 -> calculateRatios st1 = calculateRatios st2.
Proof.
  intros Hf. apply state_eq.
  - rewrite !calculateRatios_form; exact Hf.
  - destruct (valid_dec st1) as [Hv | Hv].
    + rewrite (calculateRatios_valid st1 Hv),
        (calculateRatios_valid st2 (valid_form st1 st2 Hf Hv)).
      unfold rawCurrentRatio, rawQuickRatio, rawDebtToEquityRatio,
        rawDebtToAssetsRatio, numCurrentAssets, numCurrentLiabilities,
        numTotalAssets, numTotalLiabilities, numShareholdersEquity,
        numInventory.
      rewrite Hf; reflexivity.
    + rewrite (calculateRatios_invalid st1 Hv), (calculateRatios_invalid st2);
        [reflexivity |].
      intros Hv2; apply Hv; exact (valid_form st2 st1 (eq_sym Hf) Hv2).
Qed.

Lemma calculateRatios_stateless_witness :
  outcome form_quick_070_stale <> outcome form_quick_070
  /\ calculateRatios form_quick_070_stale = calculateRatios form_quick_070.
Proof.
  split; [vm_compute; discriminate |].
  apply (calculateRatios_stateless form_quick_070_stale form_quick_070).
  reflexivity.
Defined.

(** ** Rounding for display, classification of the raw quotient *)

Lemma length_append (a b : string) :
  String.length (a ++ b) = (String.length a + String.length b)%nat.
Proof. induction a as [| c a IH]; cbn; [reflexivity | rewrite IH; reflexivity]. Qed.

Lemma length_zeros (k : nat) : String.length (zeros k) = k.
Proof. induction k as [| k IH]; cbn; [reflexivity | rewrite IH; reflexivity]. Qed.

Lemma length_substring (s : string) :
  forall n m : nat,
    (n + m <= String.length s)%nat -> String.length (substring n m s) = m.
Proof.
  induction s as [| c s IH]; intros n m H; cbn in H.
  - assert (n = O) by lia; assert (m = O) by lia; subst; reflexivity.
  - destruct n as [| n]; cbn.
    + destruct m as [| m]; cbn; [reflexivity |].
      rewrite IH; [reflexivity | cbn; lia].
    + apply IH; lia.
Qed.

Lemma fixed_digits_fraction (num den : Z) (f : nat) :
  f <> O ->
  exists a b : string,
    fixed_digits num den f = a ++ "." ++ b /\ String.length b = f.
Proof.
  intros Hf. unfold fixed_digits.
  set (ds := digits_of _).
  destruct f as [| f]; [contradiction |].
  set (ds' := if (String.length ds <=? S f)%nat then _ else ds).
  exists (substring 0 (String.length ds' - S f) ds'),
    (substring (String.length ds' - S f) (S f) ds').
  split; [reflexivity |].
  apply length_substring.
  assert (S f <= String.length ds')%nat; [| lia].
  subst ds'. destruct (Nat.leb_spec (String.length ds) (S f)) as [H | H].
  - rewrite length_append, length_zeros; lia.
  - lia.
Qed.

Lemma toFixed_two_decimals (q : number) :
  fixedRange q = true -> twoDecimals (toFixed q 2).
Proof.
  unfold twoDecimals.
  destruct q as [sq | sq | | sq m e]; cbn [fixedRange toFixed];
    try discriminate; intros H.
  - apply fixed_digits_fraction; discriminate.
  - apply Z.ltb_lt in H.
    destruct (Z.leb_spec (10 ^ 21 * den_of e) (num_of m e)) as [H' | _];
      [lia |].
    destruct (fixed_digits_fraction (num_of m e) (den_of e) 2)
      as (a & b & Hab & Hb); [discriminate |].
    rewrite Hab.
    destruct sq; [exists (String "-" a), b | exists a, b];
      split; auto.
Qed.

(** C3, as stated, fails: at 1.499 / 1 the Current Ratio is shown as 1.50,
    whose label would be "Bueno", but the label assigned is that of the raw
    quotient 1.499, "Regular". *)
Lemma label_is_not_that_of_displayed_value :
  valid form_rounding
  /\ strict_neqb (numCurrentLiabilities form_rounding) lit_0 = true
  /\ currentRatio (outcome (calculateRatios form_rounding)) = Some "1.50"
  /\ getCurrentRatioInterpretation
       (VNumber (displayedValue (rawCurrentRatio form_rounding))) = Bueno
  /\ currentRatioInterpretation (outcome (calculateRatios form_rounding))
     = Regular
  /\ currentRatioInterpretation (outcome (calculateRatios form_rounding))
     <> getCurrentRatioInterpretation
          (VNumber (displayedValue (rawCurrentRatio form_rounding))).
Proof. vm_compute; repeat split; discriminate. Qed.

(** C3, amended: for every accepted input, each ratio whose denominator is
    not zero is displayed as the [toFixed(2)] rendering of its raw quotient
    (two decimals whenever the quotient is finite and below 10^21 in
    magnitude), and its label is the classification of the raw quotient
    itself, not of the rounded value. *)
Theorem display_rounded_label_raw (st : State) :
  valid st ->
  let o := outcome (calculateRatios st) in
  (strict_neqb (numCurrentLiabilities st) lit_0 = true ->
   currentRatio o = Some (toFixed (rawCurrentRatio st) 2)
   /\ (fixedRange (rawCurrentRatio st) = true ->
       twoDecimals (toFixed (rawCurrentRatio st) 2))
   /\ currentRatioInterpretation o
      = getCurrentRatioInterpretation (VNumber (rawCurrentRatio st)))
  /\ (strict_neqb (numCurrentLiabilities st) lit_0 = true ->
      quickRatio o = Some (toFixed (rawQuickRatio st) 2)
      /\ (fixedRange (rawQuickRatio st) = true ->
          twoDecimals (toFixed (rawQuickRatio st) 2))
      /\ quickRatioInterpretation o
         = getQuickRatioInterpretation (VNumber (rawQuickRatio st)))
  /\ (strict_neqb (numShareholdersEquity st) lit_0 = true ->
      debtToEquityRatio o = Some (toFixed (rawDebtToEquityRatio st) 2)
      /\ (fixedRange (rawDebtToEquityRatio st) = true ->
          twoDecimals (toFixed (rawDebtToEquityRatio st) 2))
      /\ debtToEquityInterpretation o
         = getDebtToEquityInterpretation (VNumber (rawDebtToEquityRatio st)))
  /\ (strict_neqb (numTotalAssets st) lit_0 = true ->
      debtToAssetsRatio o = Some (toFixed (rawDebtToAssetsRatio st) 2)
      /\ (fixedRange (rawDebtToAssetsRatio st) = true ->
          twoDecimals (toFixed (rawDebtToAssetsRatio st) 2))
      /\ debtToAssetsInterpretation o
         = getDebtToAssetsInterpretation (VNumber (rawDebtToAssetsRatio st))).
Proof.
  intros Hv o; subst o.
  rewrite (calculateRatios_valid st Hv).
  cbn [currentRatio currentRatioInterpretation quickRatio
       quickRatioInterpretation debtToEquityRatio debtToEquityInterpretation
       debtToAssetsRatio debtToAssetsInterpretation].
  repeat apply conj; intros H;
    rewrite (ratioCell_nonzero _ _ H), (interpretationCell_nonzero _ _ _ _ H);
    (split; [reflexivity | split; [apply toFixed_two_decimals | reflexivity]]).
Qed.

Lemma display_rounded_label_raw_witness :
  currentRatio (outcome (calculateRatios form_rounding)) = Some "1.50"
  /\ twoDecimals "1.50"
  /\ currentRatioInterpretation (outcome (calculateRatios form_rounding))
     = getCurrentRatioInterpretation (VNumber (rawCurrentRatio form_rounding)).
Proof.
  assert (Hv : valid form_rounding) by (vm_compute; reflexivity).
  destruct (display_rounded_label_raw form_rounding Hv) as (Hc & _).
  destruct Hc as (H1 & H2 & H3); [vm_compute; reflexivity |].
  split; [rewrite H1; vm_compute; reflexivity |].
  split; [| exact H3].
  assert (E : toFixed (rawCurrentRatio form_rounding) 2 = "1.50")
    by (vm_compute; reflexivity).
  rewrite <- E. apply H2. vm_compute; reflexivity.
Defined.

(** ** The order of numbers *)

Section Order.

Ltac order_cases :=
  repeat match goal with
    | |- context [(?a ?= ?b)%Z] => destruct (Z.compare_spec a b)
    | H : context [(?a ?= ?b)%Z] |- _ => destruct (Z.compare_spec a b)
    | |- context [PosDef.Pos.compare_cont Eq ?a ?b] =>
        change (PosDef.Pos.compare_cont Eq a b) with (Pos.compare a b);
        destruct (Pos.compare_spec a b)
    | H : context [PosDef.Pos.compare_cont Eq ?a ?b] |- _ =>
        change (PosDef.Pos.compare_cont Eq a b) with (Pos.compare a b) in H;
        destruct (Pos.compare_spec a b)
    end;
  cbn in *; try congruence; try lia.

(** On numbers other than NaN, [y <= x] is the negation of [x < y]. *)
Lemma leb_negb_ltb (x y : number) :
  isNaN x = false -> isNaN y = false -> leb y x = negb (ltb x y).
Proof.
  unfold leb, ltb, SFleb, SFltb.
  destruct x as [sx | sx | | sx mx ex], y as [sy | sy | | sy my ey];
    cbn; try discriminate; intros _ _;
    try destruct sx; try destruct sy; try reflexivity;
    order_cases.
Qed.

Lemma ltb_leb (x y : number) : ltb x y = true -> leb x y = true.
Proof.
  unfold leb, ltb, SFleb, SFltb.
  destruct (SFcompare x y) as [[ | | ] |]; congruence.
Qed.

Lemma ltb_not_NaN (x y : number) :
  ltb x y = true -> isNaN x = false /\ isNaN y = false.
Proof.
  unfold ltb, SFltb.
  destruct x, y; cbn; try discriminate; auto.
Qed.

Lemma ltb_trans (x y z : number) :
  ltb x y = true -> ltb y z = true -> ltb x z = true.
Proof.
  unfold ltb, SFltb.
  destruct x as [sx | sx | | sx mx ex], y as [sy | sy | | sy my ey],
    z as [sz | sz | | sz mz ez];
    cbn; try discriminate;
    try destruct sx; try destruct sy; try destruct sz;
    try discriminate; try reflexivity;
    intros H1 H2; order_cases.
Qed.

Lemma ltb_asym (x y : number) : ltb x y = true -> ltb y x = false.
Proof.
  intros H. destruct (ltb_not_NaN _ _ H) as [Hx Hy].
  apply ltb_leb in H.
  rewrite (leb_negb_ltb y x Hy Hx) in H.
  destruct (ltb y x); [discriminate | reflexivity].
Qed.

End Order.

(** ** Classification by threshold cascades *)

Lemma labels_NoDup : NoDup labels.
Proof.
  unfold labels.
  repeat (constructor; [cbn; intuition discriminate |]).
  constructor.
Qed.

Ltac settle_rows :=
  split;
  [ cbv [labels In]; tauto
  | let b := fresh "b" in
    let l := fresh "l" in
    let H := fresh "H" in
    intros b l H; cbn [In] in H;
    repeat (destruct H as [H | H]; [injection H as <- <-; cbn |]);
    [ .. | contradiction ];
    (split; intros ?; first [reflexivity | discriminate]) ].

(** Ratios where higher is better: thresholds [t4 < t3 < t2 < t1]. *)
Lemma higher_is_better_selects (t1 t2 t3 t4 r : number) :
  ltb t2 t1 = true -> ltb t3 t2 = true -> ltb t4 t3 = true ->
  isNaN r = false ->
  selects
    [ (gtb r t1, Excelente);
      (geb r t2 && leb r t1, Bueno);
      (geb r t3 && ltb r t2, Regular);
      (geb r t4 && ltb r t3, Malo);
      (ltb r t4, Pesimo) ]
    (if gtb r t1 then Excelente
     else if geb r t2 then Bueno
     else if geb r t3 then Regular
     else if geb r t4 then Malo
     else Pesimo).
Proof.
  intros H21 H32 H43 Hr.
  destruct (ltb_not_NaN _ _ H21) as [N2 N1].
  destruct (ltb_not_NaN _ _ H43) as [N4 N3].
  change (gtb r t1) with (ltb t1 r).
  change (geb r t2) with (leb t2 r).
  change (geb r t3) with (leb t3 r).
  change (geb r t4) with (leb t4 r).
  rewrite (leb_negb_ltb t1 r N1 Hr), (leb_negb_ltb r t2 Hr N2),
    (leb_negb_ltb r t3 Hr N3), (leb_negb_ltb r t4 Hr N4).
  pose proof (ltb_trans r t4 t3) as C43.
  pose proof (ltb_trans r t3 t2) as C32.
  pose proof (ltb_trans r t2 t1) as C21.
  pose proof (ltb_asym r t1) as A1.
  destruct (ltb r t4), (ltb r t3), (ltb r t2), (ltb r t1), (ltb t1 r);
    try (specialize (C43 eq_refl H43); discriminate);
    try (specialize (C32 eq_refl H32); discriminate);
    try (specialize (C21 eq_refl H21); discriminate);
    try (specialize (A1 eq_refl); discriminate);
    cbn [negb andb]; settle_rows.
Qed.

(** Ratios where lower is better: thresholds [t1 < t2 < t3 < t4]. *)
Lemma lower_is_better_selects (t1 t2 t3 t4 r : number) :
  ltb t1 t2 = true -> ltb t2 t3 = true -> ltb t3 t4 = true ->
  isNaN r = false ->
  selects
    [ (ltb r t1, Excelente);
      (geb r t1 && leb r t2, Bueno);
      (gtb r t2 && leb r t3, Regular);
      (gtb r t3 && leb r t4, Malo);
      (gtb r t4, Pesimo) ]
    (if ltb r t1 then Excelente
     else if geb r t1 && leb r t2 then Bueno
     else if gtb r t2 && leb r t3 then Regular
     else if gtb r t3 && leb r t4 then Malo
     else Pesimo).
Proof.
  intros H12 H23 H34 Hr.
  destruct (ltb_not_NaN _ _ H12) as [N1 N2].
  destruct (ltb_not_NaN _ _ H34) as [N3 N4].
  change (geb r t1) with (leb t1 r).
  change (gtb r t2) with (ltb t2 r).
  change (gtb r t3) with (ltb t3 r).
  change (gtb r t4) with (ltb t4 r).
  rewrite (leb_negb_ltb r t1 Hr N1), (leb_negb_ltb t2 r N2 Hr),
    (leb_negb_ltb t3 r N3 Hr), (leb_negb_ltb t4 r N4 Hr).
  pose proof (fun H => ltb_trans t3 t4 r H34 H) as C43.
  pose proof (fun H => ltb_trans t2 t3 r H23 H) as C32.
  pose proof (fun H => ltb_trans t1 t2 r H12 H) as C21.
  pose proof (ltb_asym t1 r) as A1.
  destruct (ltb t4 r), (ltb t3 r), (ltb t2 r), (ltb t1 r), (ltb r t1);
    try (specialize (C43 eq_refl); discriminate);
    try (specialize (C32 eq_refl); discriminate);
    try (specialize (C21 eq_refl); discriminate);
    try (specialize (A1 eq_refl); discriminate);
    cbn [negb andb]; settle_rows.
Qed.

(** C9: each classification function is total; on a value that is not a
    number, and on NaN, it returns the empty string; on any other number it
    returns one of the five labels, the row of that label in the ratio's
    threshold table holds and no other row does (the five rows are exhaustive
    and mutually exclusive). *)
Theorem classification_rows_partition :
  (forall v : value,
      typeof v <> "number" ->
      getCurrentRatioInterpretation v = ""
      /\ getQuickRatioInterpretation v = ""
      /\ getDebtToEquityInterpretation v = ""
      /\ getDebtToAssetsInterpretation v = "")
  /\ (getCurrentRatioInterpretation (VNumber NaN) = ""
      /\ getQuickRatioInterpretation (VNumber NaN) = ""
      /\ getDebtToEquityInterpretation (VNumber NaN) = ""
      /\ getDebtToAssetsInterpretation (VNumber NaN) = "")
  /\ (forall r : number,
         isNaN r = false ->
         selects (currentTable r) (getCurrentRatioInterpretation (VNumber r))
         /\ selects (quickTable r) (getQuickRatioInterpretation (VNumber r))
         /\ selects (debtToEquityTable r)
              (getDebtToEquityInterpretation (VNumber r))
         /\ selects (debtToAssetsTable r)
              (getDebtToAssetsInterpretation (VNumber r)))
  /\ NoDup labels.
Proof.
  split; [| split; [| split]].
  - intros v Hv. destruct v; cbn in Hv; try contradiction; repeat split.
  - repeat split.
  - intros r Hr.
    unfold getCurrentRatioInterpretation, getQuickRatioInterpretation,
      getDebtToEquityInterpretation, getDebtToAssetsInterpretation,
      currentTable, quickTable, debtToEquityTable, debtToAssetsTable.
    rewrite Hr.
    split; [| split; [| split]];
      first [ apply higher_is_better_selects
            | apply lower_is_better_selects ];
      first [ exact Hr | vm_compute; reflexivity ].
  - exact labels_NoDup.
Qed.

Lemma classification_rows_partition_witness :
  selects (currentTable lit_1_5)
    (getCurrentRatioInterpretation (VNumber lit_1_5))
  /\ getCurrentRatioInterpretation (VNumber lit_1_5) = Bueno
  /\ getDebtToAssetsInterpretation VUndefined = "".
Proof.
  destruct classification_rows_partition as (Hother & _ & Hnum & _).
  split; [apply (Hnum lit_1_5); reflexivity |].
  split; [vm_compute; reflexivity |].
  apply (Hother VUndefined); cbn; discriminate.
Defined.

(** ** Negative equity *)

Section RoundingSign.

Lemma shr_1_nonneg (mrs : shr_record) :
  0 <= shr_m mrs -> 0 <= shr_m (shr_1 mrs).
Proof.
  destruct mrs as [m r s]; cbn.
  destruct m as [| p | p]; [| destruct p | destruct p]; cbn; lia.
Qed.

Lemma iter_shr_1_nonneg (p : positive) :
  forall mrs : shr_record,
    0 <= shr_m mrs -> 0 <= shr_m (iter_pos shr_1 p mrs).
Proof.
  induction p as [p IH | p IH |]; intros mrs H; cbn.
  - apply IH, IH, shr_1_nonneg, H.
  - apply IH, IH, H.
  - apply shr_1_nonneg, H.
Qed.

Lemma shr_fexp_nonneg (m e : Z) (l : location) :
  0 <= m -> 0 <= shr_m (fst (shr_fexp prec emax m e l)).
Proof.
  intros H. unfold shr_fexp, shr.
  assert (H0 : 0 <= shr_m (shr_record_of_loc m l))
    by (destruct l as [| []]; exact H).
  destruct (fexp prec emax (Zdigits2 m + e) - e); cbn [fst];
    [exact H0 | apply iter_shr_1_nonneg, H0 | exact H0].
Qed.

Lemma round_nearest_even_nonneg (m : Z) (l : location) :
  0 <= m -> 0 <= round_nearest_even m l.
Proof.
  intros H. destruct l as [| []]; cbn; try lia.
  destruct (Z.even m); lia.
Qed.

(** Rounding a natural mantissa gives a zero, a finite number or an
    infinity of the requested sign, never NaN. *)
Lemma binary_round_aux_sign (s : bool) (m e : Z) (l : location) :
  0 <= m ->
  match binary_round_aux prec emax s m e l with
  | S754_nan => False
  | S754_zero s' | S754_infinity s' | S754_finite s' _ _ => s' = s
  end.
Proof.
  intros H. unfold binary_round_aux.
  pose proof (shr_fexp_nonneg m e l H) as H1.
  destruct (shr_fexp prec emax m e l) as [mrs' e']; cbn [fst] in H1.
  pose proof (shr_fexp_nonneg _ e' loc_Exact
                (round_nearest_even_nonneg _ (loc_of_shr_record mrs') H1))
    as H2.
  destruct (shr_fexp prec emax _ e' loc_Exact) as [mrs'' e''];
    cbn [fst] in H2.
  destruct (shr_m mrs'') as [| p | p]; [reflexivity | | lia].
  destruct (e'' <=? emax - prec); reflexivity.
Qed.

Lemma div_finite_sign (sx sy : bool) (mx my : positive) (ex ey : Z) :
  match div (S754_finite sx mx ex) (S754_finite sy my ey) with
  | S754_nan => False
  | S754_zero s' | S754_infinity s' | S754_finite s' _ _ => s' = xorb sx sy
  end.
Proof.
  unfold div, SFdiv, SFdiv_core_binary.
  set (e' := Z.min _ _).
  set (m' := match ex - ey - e' with
             | Z0 => Zpos mx
             | Zpos _ => Z.shiftl (Zpos mx) (ex - ey - e')
             | Zneg _ => 0
             end).
  assert (Hm : 0 <= m').
  { subst m'. destruct (ex - ey - e'); try lia.
    apply Z.shiftl_nonneg; lia. }
  pose proof (Z.div_pos m' (Zpos my) Hm ltac:(lia)) as Hq.
  unfold Z.div in Hq.
  destruct (Z.div_eucl m' (Zpos my)) as [q r]; cbn [fst] in Hq.
  apply binary_round_aux_sign, Hq.
Qed.

End RoundingSign.

(** C10, as stated, fails: with total liabilities 5e-324 and shareholders'
    equity -2 the quotient underflows to negative zero, which is not below
    zero; it is shown as 0.00. *)
Lemma underflowing_ratio_is_not_negative :
  cleanedForStorage tiny = tiny
  /\ valid form_underflow
  /\ allFinite form_underflow
  /\ gtb (numTotalLiabilities form_underflow) lit_0 = true
  /\ ltb (numShareholdersEquity form_underflow) lit_0 = true
  /\ rawDebtToEquityRatio form_underflow = S754_zero true
  /\ ltb (rawDebtToEquityRatio form_underflow) lit_0 = false
  /\ debtToEquityRatio (outcome (calculateRatios form_underflow))
     = Some "0.00".
Proof. vm_compute; repeat split. Qed.

(** C10, amended: for every accepted input with finite fields, negative
    shareholders' equity and positive total liabilities, Debt-to-Equity is
    computed (it is not "N/A"); the quotient is never positive: it is
    negative, or negative zero when it underflows; and it is classified
    "Excelente" whatever the size of total liabilities. *)
Theorem negative_equity_is_excellent (st : State) :
  valid st ->
  isFinite (numTotalLiabilities st) = true ->
  isFinite (numShareholdersEquity st) = true ->
  gtb (numTotalLiabilities st) lit_0 = true ->
  ltb (numShareholdersEquity st) lit_0 = true ->
  debtToEquityRatio (outcome (calculateRatios st))
  = Some (toFixed (rawDebtToEquityRatio st) 2)
  /\ isNaN (rawDebtToEquityRatio st) = false
  /\ gtb (rawDebtToEquityRatio st) lit_0 = false
  /\ (ltb (rawDebtToEquityRatio st) lit_0 = true
      \/ rawDebtToEquityRatio st = S754_zero true)
  /\ ltb (rawDebtToEquityRatio st) lit_0_5 = true
  /\ debtToEquityInterpretation (outcome (calculateRatios st)) = Excelente.
Proof.
  intros Hv Fl Fe Hl He.
  rewrite (calculateRatios_valid st Hv).
  cbn [debtToEquityRatio debtToEquityInterpretation].
  unfold rawDebtToEquityRatio in *.
  destruct (numTotalLiabilities st) as [sl | sl | | sl ml el];
    try discriminate; destruct sl; try discriminate.
  destruct (numShareholdersEquity st) as [se | se | | se me ee];
    try discriminate; destruct se; try discriminate.
  pose proof (div_finite_sign false true ml me el ee) as Hs.
  rewrite ratioCell_nonzero, interpretationCell_nonzero by reflexivity.
  unfold getDebtToEquityInterpretation.
  destruct (div (S754_finite false ml el) (S754_finite true me ee))
    as [s' | s' | | s' m' e']; try contradiction; cbn in Hs; subst s';
    repeat split; auto.
Qed.

Lemma negative_equity_is_excellent_witness :
  debtToEquityRatio (outcome (calculateRatios form_negative_equity))
  = Some "-300.00"
  /\ debtToEquityInterpretation (outcome (calculateRatios form_negative_equity))
     = Excelente.
Proof.
  destruct (negative_equity_is_excellent form_negative_equity)
    as (H1 & _ & _ & _ & _ & H2); try (vm_compute; reflexivity).
  split; [rewrite H1; vm_compute; reflexivity | exact H2].
Defined.


(** * Further properties of the component *)

(** ** Currency symbols *)

Ltac decide_codes :=
  repeat match goal with
    | |- context [(?a =? ?b)%string] =>
        destruct (String.eqb_spec a b); [subst |]
    end.

(** X1: [getCurrencySymbol] returns a symbol (a non-empty string) exactly for
    the thirteen codes the currency selector offers, compared case
    sensitively; any other code gets the empty string. *)
Theorem currency_symbol_iff_offered (currencyCode : string) :
  getCurrencySymbol currencyCode <> "" <-> In currencyCode currencyOptions.
Proof.
  split.
  - unfold getCurrencySymbol; decide_codes; intros H;
      first [ contradiction H; reflexivity
            | cbv [currencyOptions In]; tauto ].
  - intros H. cbv [currencyOptions In] in H.
    repeat (destruct H as [<- | H]; [vm_compute; discriminate |]).
    contradiction.
Qed.

(** X2: among the offered codes the symbol identifies the currency, except
    that the yen and the yuan share one symbol. *)
Theorem currency_symbol_collision (a b : string) :
  In a currencyOptions -> In b currencyOptions ->
  getCurrencySymbol a = getCurrencySymbol b ->
  a = b \/ (a = "JPY" /\ b = "CNY") \/ (a = "CNY" /\ b = "JPY").
Proof.
  intros Ha Hb. cbv [currencyOptions In] in Ha, Hb.
  repeat (destruct Ha as [<- | Ha]; [| try contradiction]);
    repeat (destruct Hb as [<- | Hb]; [| try contradiction]);
    vm_compute; intros H; try discriminate H; tauto.
Qed.

Lemma currency_symbol_collision_witness :
  getCurrencySymbol "JPY" = getCurrencySymbol "CNY"
  /\ ("JPY" = "CNY"
      \/ ("JPY" = "JPY" /\ "CNY" = "CNY")
      \/ ("JPY" = "CNY" /\ "CNY" = "JPY")).
Proof.
  split; [reflexivity |].
  apply (currency_symbol_collision "JPY" "CNY");
    [cbv [currencyOptions In]; tauto | cbv [currencyOptions In]; tauto
    | reflexivity].
Defined.

(** ** What the numeric inputs store *)

Lemma filter_chars_all (p : ascii -> bool) (s : string) :
  all_chars p (filter_chars p s) = true.
Proof.
  induction s as [| c r IH]; cbn; [reflexivity |].
  destruct (p c) eqn:E; cbn; [rewrite E; exact IH | exact IH].
Qed.

Lemma filter_chars_fixed (p : ascii -> bool) (s : string) :
  all_chars p s = true -> filter_chars p s = s.
Proof.
  induction s as [| c r IH]; cbn; [reflexivity |].
  intros H. apply andb_true_iff in H. destruct H as [Hc Hr].
  rewrite Hc, (IH Hr). reflexivity.
Qed.

Lemma filter_chars_append (p : ascii -> bool) (a b : string) :
  filter_chars p (a ++ b) = filter_chars p a ++ filter_chars p b.
Proof.
  induction a as [| c r IH]; cbn; [reflexivity |].
  destruct (p c); cbn; rewrite IH; reflexivity.
Qed.

Lemma filter_chars_twice (p q : ascii -> bool) (s : string) :
  (forall c, q c = true -> p c = true) ->
  filter_chars q (filter_chars p s) = filter_chars q s.
Proof.
  intros Hpq. induction s as [| c r IH]; cbn; [reflexivity |].
  destruct (p c) eqn:Ep; cbn.
  - rewrite IH. reflexivity.
  - destruct (q c) eqn:Eq; [| exact IH].
    rewrite (Hpq c Eq) in Ep. discriminate.
Qed.

Lemma storable_not_comma (c : ascii) :
  storable c = true -> negb (code c =? 44) = true.
Proof.
  unfold storable, is_digit. intros H.
  destruct (Z.eqb_spec (code c) 44) as [E | E]; [| reflexivity].
  rewrite E in H. discriminate.
Qed.

Lemma cleanedForStorage_filter (inputVal : string) :
  cleanedForStorage inputVal = filter_chars storable inputVal.
Proof.
  unfold cleanedForStorage.
  apply (filter_chars_twice _ storable), storable_not_comma.
Qed.

(** X3: what a numeric input stores is the typed text with every character
    other than a digit, a point or a minus removed and the order kept (the
    removal of commas adds nothing to that); it holds no other character. *)
Theorem stored_text_is_filtered (inputVal : string) :
  cleanedForStorage inputVal = filter_chars storable inputVal
  /\ all_chars storable (cleanedForStorage inputVal) = true.
Proof.
  split; [apply cleanedForStorage_filter |].
  rewrite cleanedForStorage_filter. apply filter_chars_all.
Qed.

(** X4: cleaning is idempotent, it leaves a text unchanged exactly when the
    text holds only digits, points and minus signs, and it distributes over
    concatenation: cleaning a text typed in two pieces gives the two cleaned
    pieces. *)
Theorem cleaning_fixed_points (a b : string) :
  cleanedForStorage (cleanedForStorage a) = cleanedForStorage a
  /\ (cleanedForStorage a = a <-> all_chars storable a = true)
  /\ cleanedForStorage (a ++ b) = cleanedForStorage a ++ cleanedForStorage b.
Proof.
  rewrite !cleanedForStorage_filter.
  split; [| split; [split |]].
  - apply filter_chars_fixed, filter_chars_all.
  - intros H. rewrite <- H. apply filter_chars_all.
  - apply filter_chars_fixed.
  - apply filter_chars_append.
Qed.

(** ** Which texts [parseFloat] accepts *)

Ltac split_bits c := destruct c as [[] [] [] [] [] [] [] []].

Lemma code_eqb (c d : ascii) : (code c =? code d) = Ascii.eqb c d.
Proof.
  destruct (Ascii.eqb_spec c d) as [-> | Hn]; [apply Z.eqb_refl |].
  apply Z.eqb_neq. intros H. apply Hn.
  unfold code in H. apply N2Z.inj in H.
  rewrite <- (ascii_N_embedding c), <- (ascii_N_embedding d), H.
  reflexivity.
Qed.

Lemma read_sign_eq (s : string) :
  read_sign s =
  match s with
  | String c r =>
      if Ascii.eqb c "-" then (true, r)
      else if Ascii.eqb c "+" then (false, r)
      else (false, s)
  | EmptyString => (false, s)
  end.
Proof. destruct s as [| c r]; [reflexivity |]. split_bits c; reflexivity. Qed.

Lemma parseFloat_eq (input : string) :
  parseFloat input =
  let '(neg, s1) := read_sign (trim_start input) in
  if prefix "Infinity" s1 then S754_infinity neg
  else
    let '(ip, ni, s2) := read_digits s1 0 0 in
    match s2 with
    | String c r =>
        if Ascii.eqb c "." then
          let '(m, nf, s3) := read_digits r ip 0 in
          if (0 <? ni) || (0 <? nf)
          then of_decimal neg m (read_exponent s3 - nf)
          else NaN
        else if 0 <? ni then of_decimal neg ip (read_exponent s2) else NaN
    | EmptyString =>
        if 0 <? ni then of_decimal neg ip (read_exponent s2) else NaN
    end.
Proof.
  unfold parseFloat.
  destruct (read_sign (trim_start input)) as [neg s1].
  destruct (prefix "Infinity" s1); [reflexivity |].
  destruct (read_digits s1 0 0) as [[ip ni] s2].
  destruct s2 as [| c r]; [reflexivity |].
  split_bits c; reflexivity.
Qed.

(** A decimal never converts to NaN. *)
Lemma of_decimal_not_NaN (s : bool) (n k : Z) :
  isNaN (of_decimal s n k) = false.
Proof.
  unfold of_decimal.
  destruct (n * 10 ^ Z.max k 0) as [| N | N]; try reflexivity.
  pose proof (div_finite_sign s false N (Z.to_pos (10 ^ Z.max (- k) 0)) 0 0)
    as H.
  unfold div in H.
  destruct (SFdiv prec emax _ _); [reflexivity | reflexivity | | reflexivity].
  contradiction.
Qed.

Lemma read_digits_count (s : string) :
  forall acc cnt : Z, cnt <= snd (fst (read_digits s acc cnt)).
Proof.
  induction s as [| c r IH]; intros acc cnt; cbn; [lia |].
  destruct (is_digit c); cbn; [| lia].
  specialize (IH (acc * 10 + digit_value c) (cnt + 1)). lia.
Qed.

Lemma read_digits_first_digit (c : ascii) (r : string) (acc cnt : Z) :
  is_digit c = true ->
  cnt < snd (fst (read_digits (String c r) acc cnt)).
Proof.
  intros H; cbn; rewrite H.
  pose proof (read_digits_count r (acc * 10 + digit_value c) (cnt + 1)).
  lia.
Qed.

Lemma read_digits_no_digit (s : string) (acc cnt : Z) :
  match s with
  | String c _ => is_digit c = false
  | EmptyString => True
  end ->
  read_digits s acc cnt = (acc, cnt, s).
Proof.
  destruct s as [| c r]; cbn; [reflexivity |]. intros ->; reflexivity.
Qed.

Lemma parseFloat_NaN_eq (input : string) :
  isNaN (parseFloat input) = negb (beginsWithNumber input).
Proof.
  rewrite parseFloat_eq. unfold beginsWithNumber.
  destruct (read_sign (trim_start input)) as [neg s1].
  destruct (prefix "Infinity" s1); [reflexivity |]. cbn [orb].
  destruct s1 as [| c r]; [reflexivity |].
  unfold startsDecimal.
  destruct (is_digit c) eqn:Ed.
  - pose proof (read_digits_first_digit c r 0 0 Ed) as Hn.
    destruct (read_digits (String c r) 0 0) as [[ip ni] s2]; cbn in Hn.
    assert (Hni : (0 <? ni) = true) by (apply Z.ltb_lt; lia).
    rewrite Hni. cbn [orb negb].
    destruct s2 as [| c2 r2]; [apply of_decimal_not_NaN |].
    destruct (Ascii.eqb c2 "."); [| apply of_decimal_not_NaN].
    destruct (read_digits r2 ip 0) as [[m nf] s3].
    apply of_decimal_not_NaN.
  - rewrite read_digits_no_digit by exact Ed. cbn [orb].
    destruct (Ascii.eqb c "."); [| reflexivity]. cbn [andb].
    destruct r as [| d r']; [reflexivity |].
    destruct (is_digit d) eqn:Ed2.
    + pose proof (read_digits_first_digit d r' 0 0 Ed2) as Hn.
      destruct (read_digits (String d r') 0 0) as [[m nf] s3]; cbn in Hn.
      assert (Hnf : (0 <? nf) = true) by (apply Z.ltb_lt; lia).
      rewrite Hnf. cbn. apply of_decimal_not_NaN.
    + rewrite read_digits_no_digit by exact Ed2. reflexivity.
Qed.

(** X5: [parseFloat] returns NaN exactly when the text, after leading white
    space and an optional sign, begins neither with [Infinity] nor with a
    digit nor with a point followed by a digit; whatever follows such a
    beginning never makes the result NaN. *)
Theorem parseFloat_NaN_iff (input : string) :
  isNaN (parseFloat input) = true <-> beginsWithNumber input = false.
Proof.
  rewrite parseFloat_NaN_eq.
  destruct (beginsWithNumber input); cbn; split; congruence.
Qed.

Lemma trim_start_printable (c : ascii) (r : string) :
  33 <= code c <= 127 -> trim_start (String c r) = String c r.
Proof.
  intros H. cbn [trim_start].
  assert (H1 : is_ws1 (code c) = false).
  { unfold is_ws1.
    destruct (Z.leb_spec (code c) 13); [lia |].
    destruct (Z.eqb_spec (code c) 32); [lia |].
    rewrite andb_false_r. reflexivity. }
  assert (H2 : forall b, is_ws2 (code c) b = false).
  { intros b. unfold is_ws2.
    destruct (Z.eqb_spec (code c) 194); [lia | reflexivity]. }
  assert (H3 : forall b d, is_ws3 (code c) b d = false).
  { intros b d. unfold is_ws3.
    destruct (Z.eqb_spec (code c) 225); [lia |].
    destruct (Z.eqb_spec (code c) 226); [lia |].
    destruct (Z.eqb_spec (code c) 227); [lia |].
    destruct (Z.eqb_spec (code c) 239); [lia |].
    reflexivity. }
  rewrite H1.
  destruct r as [| c2 r2]; [reflexivity |]. rewrite H2.
  destruct r2 as [| c3 r3]; [reflexivity |]. rewrite H3.
  reflexivity.
Qed.

Lemma storable_range (c : ascii) : storable c = true -> 45 <= code c <= 57.
Proof.
  unfold storable, is_digit. intros H.
  destruct (Z.leb_spec 48 (code c)), (Z.leb_spec (code c) 57),
    (Z.eqb_spec (code c) 46), (Z.eqb_spec (code c) 45);
    cbn in H; try discriminate; lia.
Qed.

Lemma prefix_Infinity_storable (s : string) :
  all_chars storable s = true -> prefix "Infinity" s = false.
Proof.
  destruct s as [| c r]; [reflexivity |]. cbn [all_chars prefix].
  intros H. apply andb_true_iff in H. destruct H as [Hc _].
  destruct (ascii_dec "I" c) as [<- | _]; [discriminate | reflexivity].
Qed.

Lemma stored_begins_eq (s : string) :
  all_chars storable s = true ->
  beginsWithNumber s = storedBeginsWithNumber s.
Proof.
  intros H. unfold beginsWithNumber, storedBeginsWithNumber.
  destruct s as [| c r]; [reflexivity |].
  cbn [all_chars] in H. apply andb_true_iff in H. destruct H as [Hc Hr].
  rewrite trim_start_printable by (apply storable_range in Hc; lia).
  split_bits c; try discriminate Hc; cbn [read_sign];
    rewrite prefix_Infinity_storable;
    try reflexivity; try exact Hr;
    cbn [all_chars]; rewrite Hr; reflexivity.
Qed.

(** X6: a stored numeric field passes the validation of [calculateRatios]
    exactly when, after an optional leading minus, it begins with a digit or
    with a point followed by a digit.  So the handler reports no error if
    and only if all six stored fields begin that way. *)
Theorem accepted_iff_fields_begin_with_number (st : State) :
  (forall fld, all_chars storable (fieldOf fld st) = true) ->
  (error (outcome (calculateRatios st)) = ""
   <-> forall fld, storedBeginsWithNumber (fieldOf fld st) = true).
Proof.
  intros Hs.
  assert (Hnan : forall fld,
             isNaN (parseFloat (fieldOf fld st))
             = negb (storedBeginsWithNumber (fieldOf fld st))).
  { intros fld. rewrite parseFloat_NaN_eq, stored_begins_eq by apply Hs.
    reflexivity. }
  split.
  - intros He fld.
    destruct (valid_dec st) as [Hv | Hv].
    + apply valid_no_NaN in Hv.
      unfold numCurrentAssets, numCurrentLiabilities, numTotalAssets,
        numTotalLiabilities, numShareholdersEquity, numInventory in Hv.
      repeat (apply orb_false_iff in Hv; destruct Hv as [Hv ?]).
      specialize (Hnan fld).
      destruct fld; cbn [fieldOf] in *;
        destruct (storedBeginsWithNumber _); try reflexivity;
        cbn in Hnan; congruence.
    + rewrite (calculateRatios_invalid st Hv) in He. discriminate He.
  - intros Hall.
    assert (Hv : valid st).
    { unfold valid, parsedFields, numCurrentAssets, numCurrentLiabilities,
        numTotalAssets, numTotalLiabilities, numShareholdersEquity,
        numInventory.
      cbn [forallb].
      pose proof (fun fld => eq_trans (Hnan fld) (f_equal negb (Hall fld)))
        as Hn.
      pose proof (Hn CurrentAssets) as N1.
      pose proof (Hn CurrentLiabilities) as N2.
      pose proof (Hn TotalAssets) as N3.
      pose proof (Hn TotalLiabilities) as N4.
      pose proof (Hn ShareholdersEquity) as N5.
      pose proof (Hn Inventory) as N6.
      cbn [fieldOf negb] in N1, N2, N3, N4, N5, N6.
      rewrite N1, N2, N3, N4, N5, N6. reflexivity. }
    rewrite (calculateRatios_valid st Hv). reflexivity.
Qed.

Lemma accepted_iff_fields_begin_with_number_witness :
  error (outcome (calculateRatios form_quick_070)) = ""
  <-> forall fld, storedBeginsWithNumber (fieldOf fld form_quick_070) = true.
Proof.
  apply (accepted_iff_fields_begin_with_number form_quick_070).
  intros fld; destruct fld; vm_compute; reflexivity.
Defined.

(** ** What [parseFloat] ignores *)

Lemma append_empty_r (s : string) : s ++ "" = s.
Proof. induction s as [| c r IH]; cbn; [| rewrite IH]; reflexivity. Qed.

Lemma digit_facts (c : ascii) :
  is_digit c = true ->
  Ascii.eqb c "-" = false /\ Ascii.eqb c "+" = false
  /\ Ascii.eqb c "." = false /\ 33 <= code c <= 127.
Proof.
  intros H.
  assert (R : 48 <= code c <= 57).
  { unfold is_digit in H. apply andb_true_iff in H.
    destruct H as [H1 H2]. apply Z.leb_le in H1, H2. lia. }
  rewrite <- !code_eqb.
  change (code "-") with 45. change (code "+") with 43.
  change (code ".") with 46.
  repeat split; try lia; apply Z.eqb_neq; lia.
Qed.

Lemma prefix_Infinity_digit (c : ascii) (r : string) :
  is_digit c = true -> prefix "Infinity" (String c r) = false.
Proof.
  intros H. cbn [prefix].
  destruct (ascii_dec "I" c) as [<- | _]; [discriminate | reflexivity].
Qed.

Lemma endsNumber_no_digit (rest : string) :
  endsNumber rest = true ->
  match rest with
  | String c _ => is_digit c = false
  | EmptyString => True
  end.
Proof.
  destruct rest as [| c r]; cbn; [trivial |].
  destruct (is_digit c); [discriminate | reflexivity].
Qed.

Lemma endsNumber_no_exponent (rest : string) :
  endsNumber rest = true -> read_exponent rest = 0.
Proof.
  destruct rest as [| c r]; cbn [endsNumber read_exponent]; [reflexivity |].
  intros H.
  change 101 with (code "e"). change 69 with (code "E").
  rewrite !code_eqb.
  destruct (Ascii.eqb c "e"), (Ascii.eqb c "E"), (is_digit c);
    try discriminate H; reflexivity.
Qed.

Lemma read_digits_app (d rest : string) :
  all_chars is_digit d = true ->
  match rest with
  | String c _ => is_digit c = false
  | EmptyString => True
  end ->
  forall acc cnt : Z,
    read_digits (d ++ rest) acc cnt
    = (fst (fst (read_digits d acc cnt)),
       snd (fst (read_digits d acc cnt)), rest).
Proof.
  intros Hd Hr.
  induction d as [| c r IH]; intros acc cnt; cbn [append].
  - rewrite read_digits_no_digit by exact Hr. reflexivity.
  - cbn [all_chars] in Hd. apply andb_true_iff in Hd.
    destruct Hd as [Hc Hd]. cbn [read_digits]. rewrite Hc.
    apply IH, Hd.
Qed.

Lemma read_sign_signed (sgn : string) (c : ascii) (r : string) :
  In sgn [""; "-"; "+"] -> is_digit c = true ->
  trim_start (sgn ++ String c r) = sgn ++ String c r
  /\ read_sign (sgn ++ String c r) = ((sgn =? "-")%string, String c r).
Proof.
  intros Hs Hc. destruct (digit_facts c Hc) as (E1 & E2 & _ & Hrange).
  cbv [In] in Hs.
  destruct Hs as [<- | [<- | [<- | []]]]; cbn [append].
  - split; [apply trim_start_printable, Hrange |].
    rewrite read_sign_eq, E1, E2. reflexivity.
  - split; [apply trim_start_printable; vm_compute; split; discriminate
           | reflexivity].
  - split; [apply trim_start_printable; vm_compute; split; discriminate
           | reflexivity].
Qed.

Lemma parseFloat_fraction (sgn d1 d2 rest : string) :
  In sgn [""; "-"; "+"] ->
  all_chars is_digit d1 = true -> d1 <> "" ->
  all_chars is_digit d2 = true ->
  endsNumber rest = true ->
  parseFloat (sgn ++ d1 ++ "." ++ d2 ++ rest)
  = of_decimal (sgn =? "-")%string
      (fst (fst (read_digits d2 (fst (fst (read_digits d1 0 0))) 0)))
      (0 - snd (fst (read_digits d2 (fst (fst (read_digits d1 0 0))) 0))).
Proof.
  intros Hs H1 Hne H2 Hr.
  destruct d1 as [| c r]; [contradiction Hne; reflexivity |].
  pose proof H1 as H1'. cbn [all_chars] in H1'.
  apply andb_true_iff in H1'. destruct H1' as [Hc _].
  rewrite parseFloat_eq.
  destruct (read_sign_signed sgn c (r ++ "." ++ d2 ++ rest) Hs Hc)
    as [E1 E2].
  cbn [append] in E1, E2 |- *. rewrite E1, E2.
  rewrite prefix_Infinity_digit by exact Hc.
  change (String c (r ++ "." ++ d2 ++ rest))
    with (String c r ++ "." ++ d2 ++ rest).
  rewrite (read_digits_app (String c r) ("." ++ d2 ++ rest) H1)
    by reflexivity.
  cbn [append]. change (Ascii.eqb "." ".") with true. cbv iota.
  rewrite (read_digits_app d2 rest H2 (endsNumber_no_digit rest Hr)).
  pose proof (read_digits_first_digit c r 0 0 Hc) as Hn.
  apply Z.ltb_lt in Hn. rewrite Hn. cbn [orb].
  rewrite (endsNumber_no_exponent rest Hr). reflexivity.
Qed.

Lemma parseFloat_integer (sgn d1 rest : string) :
  In sgn [""; "-"; "+"] ->
  all_chars is_digit d1 = true -> d1 <> "" ->
  endsNumber rest = true -> prefix "." rest = false ->
  parseFloat (sgn ++ d1 ++ rest)
  = of_decimal (sgn =? "-")%string (fst (fst (read_digits d1 0 0))) 0.
Proof.
  intros Hs H1 Hne Hr Hp.
  destruct d1 as [| c r]; [contradiction Hne; reflexivity |].
  pose proof H1 as H1'. cbn [all_chars] in H1'.
  apply andb_true_iff in H1'. destruct H1' as [Hc _].
  rewrite parseFloat_eq.
  destruct (read_sign_signed sgn c (r ++ rest) Hs Hc) as [E1 E2].
  cbn [append] in E1, E2 |- *. rewrite E1, E2.
  rewrite prefix_Infinity_digit by exact Hc.
  change (String c (r ++ rest)) with (String c r ++ rest).
  rewrite (read_digits_app (String c r) rest H1 (endsNumber_no_digit rest Hr)).
  pose proof (read_digits_first_digit c r 0 0 Hc) as Hn.
  apply Z.ltb_lt in Hn. rewrite Hn.
  rewrite (endsNumber_no_exponent rest Hr).
  destruct rest as [| c2 r2]; [reflexivity |].
  cbn [prefix] in Hp.
  destruct (Ascii.eqb_spec c2 ".") as [-> | _]; [| reflexivity].
  destruct (ascii_dec "." "."); [destruct r2; discriminate Hp | contradiction].
Qed.

(** X7: once a text holds a number with a fraction (optional sign, digits,
    a point, digits), whatever follows that is not a digit or an exponent
    indicator is ignored: a second point, a minus in the middle and all that
    comes after them do not change the value and raise no error. *)
Theorem parseFloat_ignores_tail_after_fraction (sgn d1 d2 rest : string) :
  In sgn [""; "-"; "+"] ->
  all_chars is_digit d1 = true -> d1 <> "" ->
  all_chars is_digit d2 = true ->
  endsNumber rest = true ->
  parseFloat (sgn ++ d1 ++ "." ++ d2 ++ rest)
  = parseFloat (sgn ++ d1 ++ "." ++ d2).
Proof.
  intros Hs H1 Hne H2 Hr.
  rewrite (parseFloat_fraction sgn d1 d2 rest Hs H1 Hne H2 Hr).
  rewrite <- (append_empty_r d2) at 3.
  rewrite (parseFloat_fraction sgn d1 d2 "" Hs H1 Hne H2 eq_refl).
  reflexivity.
Qed.

Lemma parseFloat_ignores_tail_after_fraction_witness :
  parseFloat "1.2.3" = parseFloat "1.2"
  /\ parseFloat "-10.5-3" = parseFloat "-10.5".
Proof.
  split.
  - apply (parseFloat_ignores_tail_after_fraction "" "1" "2" ".3");
      first [ discriminate | reflexivity | cbv [In]; tauto ].
  - apply (parseFloat_ignores_tail_after_fraction "-" "10" "5" "-3");
      first [ discriminate | reflexivity | cbv [In]; tauto ].
Defined.

(** X8: the same for a whole number (optional sign, digits): whatever
    follows that is not a digit, a point or an exponent indicator is
    ignored, so a stored "100-30" counts as 100. *)
Theorem parseFloat_ignores_tail_after_integer (sgn d1 rest : string) :
  In sgn [""; "-"; "+"] ->
  all_chars is_digit d1 = true -> d1 <> "" ->
  endsNumber rest = true -> prefix "." rest = false ->
  parseFloat (sgn ++ d1 ++ rest) = parseFloat (sgn ++ d1).
Proof.
  intros Hs H1 Hne Hr Hp.
  rewrite (parseFloat_integer sgn d1 rest Hs H1 Hne Hr Hp).
  rewrite <- (append_empty_r d1) at 2.
  rewrite (parseFloat_integer sgn d1 "" Hs H1 Hne eq_refl eq_refl).
  reflexivity.
Qed.

Lemma parseFloat_ignores_tail_after_integer_witness :
  parseFloat "100-30" = parseFloat "100".
Proof.
  apply (parseFloat_ignores_tail_after_integer "" "100" "-30");
    first [ discriminate | reflexivity | cbv [In]; tauto ].
Defined.

(** ** More on [calculateRatios] *)

Lemma strict_neqb_zero (d : number) :
  strict_neqb d lit_0 = negb (isZero d).
Proof. destruct d as [sd | [] | | [] md ed]; reflexivity. Qed.

Lemma toFixed_not_NA (q : number) : toFixed q 2 <> "N/A".
Proof.
  destruct q as [sq | [] | | sq m e]; cbn [toFixed]; try discriminate.
  destruct sq; [discriminate |]. cbn [append].
  destruct (10 ^ 21 * den_of e <=? num_of m e).
  - unfold toString_large.
    destruct (shortest_digits _ _ _ _ _ _) as [sd k].
    unfold exponential_form.
    destruct (if sd =? 10 ^ k then _ else _) as [sd' n'].
    destruct (digits_of sd') as [| c [| c2 r]]; cbn; discriminate.
  - destruct (fixed_digits_fraction (num_of m e) (den_of e) 2)
      as (a & b & Hab & Hb); [discriminate |].
    rewrite Hab. intros H.
    destruct a as [| c a']; [discriminate H |].
    apply (f_equal String.length) in H.
    cbn [append String.length] in H.
    rewrite length_append in H. cbn [String.length] in H. lia.
Qed.

Lemma ratioCell_NA (d q : number) :
  ratioCell d q = Some "N/A" <-> isZero d = true.
Proof.
  unfold ratioCell. rewrite strict_neqb_zero.
  destruct (isZero d); cbn [negb]; split; intros H;
    try reflexivity; try discriminate H.
  injection H as H. contradiction (toFixed_not_NA q H).
Qed.

(** X9: on an accepted input a ratio is shown as "N/A" exactly when its own
    denominator parses to zero, of either sign ("0", "-0", "0.00", ".0");
    a computed ratio never renders as "N/A". *)
Theorem not_available_iff_zero_denominator (st : State) :
  valid st ->
  let o := outcome (calculateRatios st) in
  (currentRatio o = Some "N/A" <-> isZero (numCurrentLiabilities st) = true)
  /\ (quickRatio o = Some "N/A"
      <-> isZero (numCurrentLiabilities st) = true)
  /\ (debtToEquityRatio o = Some "N/A"
      <-> isZero (numShareholdersEquity st) = true)
  /\ (debtToAssetsRatio o = Some "N/A"
      <-> isZero (numTotalAssets st) = true).
Proof.
  intros Hv o; subst o. rewrite (calculateRatios_valid st Hv).
  cbn [currentRatio quickRatio debtToEquityRatio debtToAssetsRatio].
  repeat apply conj; apply ratioCell_NA.
Qed.

Lemma not_available_iff_zero_denominator_witness :
  currentRatio (outcome (calculateRatios form_zero_liabilities)) = Some "N/A"
  /\ debtToAssetsRatio (outcome (calculateRatios form_zero_liabilities))
     <> Some "N/A".
Proof.
  assert (Hv : valid form_zero_liabilities) by (vm_compute; reflexivity).
  destruct (not_available_iff_zero_denominator form_zero_liabilities Hv)
    as (H1 & _ & _ & H4).
  split.
  - apply H1. vm_compute. reflexivity.
  - intros H. apply H4 in H. vm_compute in H. discriminate H.
Defined.

Lemma sub_zero_display (a z d : number) :
  isZero z = true ->
  toFixed (div (sub a z) d) 2 = toFixed (div a d) 2.
Proof.
  destruct z as [sz | | |]; try discriminate. intros _.
  destruct a as [sa | sa | | sa ma ea]; try reflexivity.
  destruct sa, sz, d as [sd | sd | | sd md ed]; reflexivity.
Qed.

(** X10: when the inventory field parses to zero the Quick Ratio is displayed
    exactly as the Current Ratio (both values, both "N/A", or both absent
    after a failed validation); only their labels may differ, since the two
    ratios have different thresholds. *)
Theorem quick_ratio_without_inventory (st : State) :
  isZero (numInventory st) = true ->
  quickRatio (outcome (calculateRatios st))
  = currentRatio (outcome (calculateRatios st)).
Proof.
  intros Hz. destruct (valid_dec st) as [Hv | Hv].
  - rewrite (calculateRatios_valid st Hv). cbn [quickRatio currentRatio].
    unfold ratioCell, rawQuickRatio, rawCurrentRatio.
    rewrite (sub_zero_display _ _ _ Hz). reflexivity.
  - rewrite (calculateRatios_invalid st Hv). reflexivity.
Qed.

Lemma quick_ratio_without_inventory_witness :
  quickRatio (outcome (calculateRatios form_debt_250_100)) = Some "1.00"
  /\ quickRatio (outcome (calculateRatios form_debt_250_100))
     = currentRatio (outcome (calculateRatios form_debt_250_100)).
Proof.
  split; [vm_compute; reflexivity |].
  apply (quick_ratio_without_inventory form_debt_250_100).
  vm_compute. reflexivity.
Defined.

Lemma binary_normalize_not_NaN (m e : Z) (szero : bool) :
  isNaN (binary_normalize prec emax m e szero) = false.
Proof.
  unfold binary_normalize, binary_round.
  destruct m as [| p | p]; [reflexivity | |];
    destruct (shl_align _ _ _) as [mz ez];
    match goal with
    | |- isNaN (binary_round_aux _ _ ?s ?m ?e ?l) = false =>
        pose proof (binary_round_aux_sign s m e l ltac:(lia)) as H;
        destruct (binary_round_aux prec emax s m e l);
        [reflexivity | reflexivity | contradiction | reflexivity]
    end.
Qed.

Lemma sub_finite_not_NaN (a b : number) :
  isFinite a = true -> isFinite b = true -> isNaN (sub a b) = false.
Proof.
  destruct a as [sa | sa | | sa ma ea], b as [sb | sb | | sb mb eb];
    try discriminate; intros _ _; cbn [sub SFsub].
  - destruct sa, sb; reflexivity.
  - reflexivity.
  - reflexivity.
  - apply binary_normalize_not_NaN.
Qed.

Lemma div_by_finite_not_NaN (a d : number) :
  isNaN a = false -> isFinite d = true -> isZero d = false ->
  isNaN (div a d) = false.
Proof.
  destruct d as [sd | sd | | sd md ed]; try discriminate. intros Ha _ _.
  destruct a as [sa | sa | | sa ma ea]; try discriminate; try reflexivity.
  pose proof (div_finite_sign sa sd ma md ea ed) as H.
  destruct (div (S754_finite sa ma ea) (S754_finite sd md ed));
    [reflexivity | reflexivity | contradiction | reflexivity].
Qed.

Lemma classified_when_not_NaN (r : number) :
  isNaN r = false ->
  In (getCurrentRatioInterpretation (VNumber r)) labels
  /\ In (getQuickRatioInterpretation (VNumber r)) labels
  /\ In (getDebtToEquityInterpretation (VNumber r)) labels
  /\ In (getDebtToAssetsInterpretation (VNumber r)) labels.
Proof.
  intros Hr.
  unfold getCurrentRatioInterpretation, getQuickRatioInterpretation,
    getDebtToEquityInterpretation, getDebtToAssetsInterpretation.
  rewrite Hr.
  repeat apply conj;
    repeat match goal with
      | |- context [if ?b then _ else _] => destruct b
      end;
    cbv [labels In]; tauto.
Qed.

Lemma allFinite_fields (st : State) :
  allFinite st ->
  isFinite (numCurrentAssets st) = true
  /\ isFinite (numCurrentLiabilities st) = true
  /\ isFinite (numTotalAssets st) = true
  /\ isFinite (numTotalLiabilities st) = true
  /\ isFinite (numShareholdersEquity st) = true
  /\ isFinite (numInventory st) = true.
Proof.
  unfold allFinite, parsedFields; cbn [forallb]. intros H.
  repeat (apply andb_true_iff in H; destruct H as [? H]).
  repeat split; assumption.
Qed.

Lemma finite_not_NaN (x : number) : isFinite x = true -> isNaN x = false.
Proof. destruct x; try discriminate; reflexivity. Qed.

(** X11: when all six fields parse to finite numbers, every ratio whose
    denominator is not zero is a number (never NaN) and carries one of the
    five labels, never the empty label. *)
Theorem finite_inputs_are_classified (st : State) :
  allFinite st ->
  let o := outcome (calculateRatios st) in
  error o = ""
  /\ (isZero (numCurrentLiabilities st) = false ->
      isNaN (rawCurrentRatio st) = false
      /\ In (currentRatioInterpretation o) labels
      /\ isNaN (rawQuickRatio st) = false
      /\ In (quickRatioInterpretation o) labels)
  /\ (isZero (numShareholdersEquity st) = false ->
      isNaN (rawDebtToEquityRatio st) = false
      /\ In (debtToEquityInterpretation o) labels)
  /\ (isZero (numTotalAssets st) = false ->
      isNaN (rawDebtToAssetsRatio st) = false
      /\ In (debtToAssetsInterpretation o) labels).
Proof.
  intros Hf o; subst o.
  destruct (allFinite_fields st Hf) as (Fa & Fl & Ft & Ftl & Fe & Fi).
  assert (Hv : valid st).
  { unfold valid, parsedFields; cbn [forallb].
    rewrite !finite_not_NaN by assumption. reflexivity. }
  rewrite (calculateRatios_valid st Hv).
  cbn [error currentRatioInterpretation quickRatioInterpretation
       debtToEquityInterpretation debtToAssetsInterpretation].
  unfold interpretationCell. rewrite !strict_neqb_zero.
  split; [reflexivity |].
  repeat apply conj; intros Hz; rewrite Hz; cbn [negb].
  - assert (N1 : isNaN (rawCurrentRatio st) = false)
      by (apply div_by_finite_not_NaN; auto using finite_not_NaN).
    assert (N2 : isNaN (rawQuickRatio st) = false)
      by (apply div_by_finite_not_NaN; auto using sub_finite_not_NaN).
    repeat split; try assumption;
      [apply (classified_when_not_NaN _ N1)
      | apply (classified_when_not_NaN _ N2)].
  - assert (N : isNaN (rawDebtToEquityRatio st) = false)
      by (apply div_by_finite_not_NaN; auto using finite_not_NaN).
    split; [exact N | apply (classified_when_not_NaN _ N)].
  - assert (N : isNaN (rawDebtToAssetsRatio st) = false)
      by (apply div_by_finite_not_NaN; auto using finite_not_NaN).
    split; [exact N | apply (classified_when_not_NaN _ N)].
Qed.

Lemma finite_inputs_are_classified_witness :
  error (outcome (calculateRatios form_negative_equity)) = ""
  /\ In (debtToEquityInterpretation
           (outcome (calculateRatios form_negative_equity))) labels.
Proof.
  assert (Hf : allFinite form_negative_equity) by (vm_compute; reflexivity).
  destruct (finite_inputs_are_classified form_negative_equity Hf)
    as (H0 & _ & H3 & _).
  split; [exact H0 |].
  apply H3. vm_compute. reflexivity.
Defined.

(** X12: a numeric field left empty fails the validation: whatever the other
    fields hold, [calculateRatios] ends with the validation message and no
    result. *)
Theorem empty_field_is_rejected (st : State) (fld : NumericField) :
  fieldOf fld st = "" ->
  outcome (calculateRatios st) = rejectedOutcome.
Proof.
  intros He. apply calculateRatios_invalid. intros Hv.
  apply valid_no_NaN in Hv.
  unfold numCurrentAssets, numCurrentLiabilities, numTotalAssets,
    numTotalLiabilities, numShareholdersEquity, numInventory in Hv.
  repeat (apply orb_false_iff in Hv; destruct Hv as [Hv ?]).
  destruct fld; cbn [fieldOf] in He; rewrite He in *; discriminate.
Qed.

Lemma empty_field_is_rejected_witness :
  outcome (calculateRatios (handleClearForm form_quick_070)) = rejectedOutcome.
Proof.
  apply (empty_field_is_rejected (handleClearForm form_quick_070) Inventory).
  reflexivity.
Defined.

(** X13: pressing Calculate twice is the same as pressing it once: the
    handler does not change the form it reads, and its result does not
    depend on the results of the first run. *)
Theorem calculateRatios_idempotent (st : State) :
  calculateRatios (calculateRatios st) = calculateRatios st.
Proof.
  pose proof (calculateRatios_form st) as Hf.
  apply state_eq; [apply calculateRatios_form |].
  destruct (valid_dec st) as [Hv | Hv].
  - rewrite (calculateRatios_valid _ (valid_form _ _ (eq_sym Hf) Hv)),
      (calculateRatios_valid st Hv).
    unfold rawCurrentRatio, rawQuickRatio, rawDebtToEquityRatio,
      rawDebtToAssetsRatio, numCurrentAssets, numCurrentLiabilities,
      numTotalAssets, numTotalLiabilities, numShareholdersEquity,
      numInventory.
    rewrite Hf. reflexivity.
  - rewrite (calculateRatios_invalid st Hv).
    apply calculateRatios_invalid. intros Hv'. apply Hv.
    exact (valid_form _ _ Hf Hv').
Qed.

(** ** Monotonicity of the classification *)

Ltac compare_cases :=
  repeat match goal with
    | |- context [(?a ?= ?b)%Z] => destruct (Z.compare_spec a b)
    | H : context [(?a ?= ?b)%Z] |- _ => destruct (Z.compare_spec a b)
    | |- context [PosDef.Pos.compare_cont Eq ?a ?b] =>
        change (PosDef.Pos.compare_cont Eq a b) with (Pos.compare a b);
        destruct (Pos.compare_spec a b)
    | H : context [PosDef.Pos.compare_cont Eq ?a ?b] |- _ =>
        change (PosDef.Pos.compare_cont Eq a b) with (Pos.compare a b) in H;
        destruct (Pos.compare_spec a b)
    end;
  cbn in *; try congruence; try lia.

Ltac by_comparison :=
  match goal with
  | |- forall x y z : number, _ =>
      intros x y z;
      destruct x as [sx | sx | | sx mx ex], y as [sy | sy | | sy my ey],
        z as [sz | sz | | sz mz ez];
      cbn; try discriminate;
      try destruct sx; try destruct sy; try destruct sz;
      try discriminate; try reflexivity;
      intros H1 H2; compare_cases
  end.

Lemma leb_trans :
  forall x y z : number,
    leb x y = true -> leb y z = true -> leb x z = true.
Proof. unfold leb, SFleb. by_comparison. Qed.

Lemma ltb_leb_trans :
  forall x y z : number,
    ltb x y = true -> leb y z = true -> ltb x z = true.
Proof. unfold leb, ltb, SFleb, SFltb. by_comparison. Qed.

Lemma leb_ltb_trans :
  forall x y z : number,
    leb x y = true -> ltb y z = true -> ltb x z = true.
Proof. unfold leb, ltb, SFleb, SFltb. by_comparison. Qed.

Lemma leb_not_NaN (x y : number) :
  leb x y = true -> isNaN x = false /\ isNaN y = false.
Proof.
  unfold leb, SFleb. destruct x, y; cbn; try discriminate; auto.
Qed.

Ltac use_implications :=
  repeat match goal with
    | H : true = true -> _ |- _ => specialize (H eq_refl)
    | H : false = true -> _ |- _ => clear H
    end;
  try discriminate.

Lemma higher_cascade_monotone (t1 t2 t3 t4 r1 r2 : number) :
  leb r1 r2 = true ->
  (labelRank (if gtb r1 t1 then Excelente
              else if geb r1 t2 then Bueno
              else if geb r1 t3 then Regular
              else if geb r1 t4 then Malo
              else Pesimo)
   <= labelRank (if gtb r2 t1 then Excelente
                 else if geb r2 t2 then Bueno
                 else if geb r2 t3 then Regular
                 else if geb r2 t4 then Malo
                 else Pesimo))%nat.
Proof.
  intros H.
  pose proof (fun Hx => ltb_leb_trans t1 r1 r2 Hx H) as M1.
  pose proof (fun Hx => leb_trans t2 r1 r2 Hx H) as M2.
  pose proof (fun Hx => leb_trans t3 r1 r2 Hx H) as M3.
  pose proof (fun Hx => leb_trans t4 r1 r2 Hx H) as M4.
  unfold gtb, geb, ltb, leb in *.
  destruct (SFltb t1 r1), (SFleb t2 r1), (SFleb t3 r1), (SFleb t4 r1),
    (SFltb t1 r2), (SFleb t2 r2), (SFleb t3 r2), (SFleb t4 r2);
    use_implications; vm_compute; lia.
Qed.

Lemma lower_cascade_antitone (t1 t2 t3 t4 r1 r2 : number) :
  isNaN t1 = false -> isNaN t2 = false ->
  isNaN t3 = false -> isNaN t4 = false ->
  leb r1 r2 = true ->
  (labelRank (if ltb r2 t1 then Excelente
              else if geb r2 t1 && leb r2 t2 then Bueno
              else if gtb r2 t2 && leb r2 t3 then Regular
              else if gtb r2 t3 && leb r2 t4 then Malo
              else Pesimo)
   <= labelRank (if ltb r1 t1 then Excelente
                 else if geb r1 t1 && leb r1 t2 then Bueno
                 else if gtb r1 t2 && leb r1 t3 then Regular
                 else if gtb r1 t3 && leb r1 t4 then Malo
                 else Pesimo))%nat.
Proof.
  intros N1 N2 N3 N4 H.
  destruct (leb_not_NaN _ _ H) as [R1 R2].
  pose proof (fun Hx => leb_ltb_trans r1 r2 t1 H Hx) as M1.
  pose proof (fun Hx => leb_trans r1 r2 t2 H Hx) as M2.
  pose proof (fun Hx => leb_trans r1 r2 t3 H Hx) as M3.
  pose proof (fun Hx => leb_trans r1 r2 t4 H Hx) as M4.
  change (geb r1 t1) with (leb t1 r1). change (geb r2 t1) with (leb t1 r2).
  change (gtb r1 t2) with (ltb t2 r1). change (gtb r2 t2) with (ltb t2 r2).
  change (gtb r1 t3) with (ltb t3 r1). change (gtb r2 t3) with (ltb t3 r2).
  rewrite (leb_negb_ltb r1 t1 R1 N1), (leb_negb_ltb r2 t1 R2 N1).
  pose proof (leb_negb_ltb t2 r1 N2 R1) as T21.
  pose proof (leb_negb_ltb t2 r2 N2 R2) as T22.
  pose proof (leb_negb_ltb t3 r1 N3 R1) as T31.
  pose proof (leb_negb_ltb t3 r2 N3 R2) as T32.
  destruct (ltb r1 t1), (leb r1 t2), (leb r1 t3), (leb r1 t4),
    (ltb r2 t1), (leb r2 t2), (leb r2 t3), (leb r2 t4),
    (ltb t2 r1), (ltb t2 r2), (ltb t3 r1), (ltb t3 r2);
    try discriminate; use_implications; vm_compute; lia.
Qed.

(** X14: for the two liquidity ratios a larger value is never classified
    worse: if [r1 <= r2], the label of [r1] ranks no higher than the label
    of [r2] (Pésimo < Malo < Regular < Bueno < Excelente). *)
Theorem liquidity_labels_monotone (r1 r2 : number) :
  leb r1 r2 = true ->
  (labelRank (getCurrentRatioInterpretation (VNumber r1))
   <= labelRank (getCurrentRatioInterpretation (VNumber r2)))%nat
  /\ (labelRank (getQuickRatioInterpretation (VNumber r1))
      <= labelRank (getQuickRatioInterpretation (VNumber r2)))%nat.
Proof.
  intros H. destruct (leb_not_NaN _ _ H) as [R1 R2].
  unfold getCurrentRatioInterpretation, getQuickRatioInterpretation.
  rewrite R1, R2.
  split; apply higher_cascade_monotone; exact H.
Qed.

Lemma liquidity_labels_monotone_witness :
  (labelRank (getCurrentRatioInterpretation (VNumber lit_1_0))
   <= labelRank (getCurrentRatioInterpretation (VNumber lit_1_5)))%nat
  /\ labelRank (getCurrentRatioInterpretation (VNumber lit_1_0)) = 2%nat
  /\ labelRank (getCurrentRatioInterpretation (VNumber lit_1_5)) = 3%nat.
Proof.
  split; [| split; vm_compute; reflexivity].
  apply (liquidity_labels_monotone lit_1_0 lit_1_5). reflexivity.
Defined.

(** X15: for the two debt ratios a larger value is never classified better:
    if [r1 <= r2], the label of [r2] ranks no higher than the label of
    [r1]. *)
Theorem debt_labels_antitone (r1 r2 : number) :
  leb r1 r2 = true ->
  (labelRank (getDebtToEquityInterpretation (VNumber r2))
   <= labelRank (getDebtToEquityInterpretation (VNumber r1)))%nat
  /\ (labelRank (getDebtToAssetsInterpretation (VNumber r2))
      <= labelRank (getDebtToAssetsInterpretation (VNumber r1)))%nat.
Proof.
  intros H. destruct (leb_not_NaN _ _ H) as [R1 R2].
  unfold getDebtToEquityInterpretation, getDebtToAssetsInterpretation.
  rewrite R1, R2.
  split; apply lower_cascade_antitone; first [exact H | reflexivity].
Qed.

Lemma debt_labels_antitone_witness :
  (labelRank (getDebtToEquityInterpretation (VNumber lit_5_0))
   <= labelRank (getDebtToEquityInterpretation (VNumber lit_0_5)))%nat
  /\ labelRank (getDebtToEquityInterpretation (VNumber lit_5_0)) = 1%nat
  /\ labelRank (getDebtToEquityInterpretation (VNumber lit_0_5)) = 3%nat.
Proof.
  split; [| split; vm_compute; reflexivity].
  apply (debt_labels_antitone lit_0_5 lit_5_0). reflexivity.
Defined.

(** ** Invariants of the component *)

Lemma ratioCell_filled (d q : number) : ratioCell d q <> None.
Proof. unfold ratioCell. destruct (strict_neqb d lit_0); discriminate. Qed.

Lemma calculateRatios_coherent (st : State) :
  coherent (outcome (calculateRatios st)).
Proof.
  destruct (valid_dec st) as [Hv | Hv].
  - right. rewrite (calculateRatios_valid st Hv).
    cbn [error currentRatio quickRatio debtToEquityRatio debtToAssetsRatio].
    split; [reflexivity |]. right.
    repeat split; apply ratioCell_filled.
  - left. rewrite (calculateRatios_invalid st Hv).
    split; reflexivity.
Qed.

Lemma step_coherent (toUpperCase : string -> string)
      (st : State) (ev : Event) :
  coherent (outcome st) -> coherent (outcome (step toUpperCase st ev)).
Proof.
  intros H. destruct ev as [v | v | v | fld v | | |]; cbn [step].
  - exact H.
  - exact H.
  - exact H.
  - destruct fld; exact H.
  - apply calculateRatios_coherent.
  - right. cbn. split; [reflexivity |]. left. repeat split.
  - exact H.
Qed.

Lemma run_coherent (toUpperCase : string -> string) (evs : list Event) :
  forall st : State,
    coherent (outcome st) -> coherent (outcome (run toUpperCase evs st)).
Proof.
  induction evs as [| ev evs IH]; intros st H; cbn [run fold_left].
  - exact H.
  - apply IH, step_coherent, H.
Qed.

(** X16: in every state the component can reach from its initial state, by
    any sequence of input changes and button presses, the outcome cells fit
    together: when the error box is shown the outcome is exactly the
    validation message with no result; when the results block is shown (it
    tests the Current Ratio only) there is no error and all four ratios hold
    a value. *)
Theorem reachable_outcome_is_coherent
        (toUpperCase : string -> string) (evs : list Event) :
  let st := run toUpperCase evs initialState in
  (showsError st = true ->
   showsResults st = false /\ outcome st = rejectedOutcome)
  /\ (showsResults st = true ->
      error (outcome st) = ""
      /\ quickRatio (outcome st) <> None
      /\ debtToEquityRatio (outcome st) <> None
      /\ debtToAssetsRatio (outcome st) <> None).
Proof.
  intros st.
  assert (H : coherent (outcome st)).
  { apply run_coherent. right. split; [reflexivity |]. left. repeat split. }
  unfold showsError, showsResults. clearbody st.
  destruct H as [[He Ho] | [He [Hn | Hs]]].
  - rewrite Ho. split; [intros _; split; reflexivity | discriminate].
  - destruct Hn as [Hn _]. rewrite He, Hn. split; discriminate.
  - destruct Hs as (H1 & H2 & H3 & H4). rewrite He.
    split; [discriminate |]. intros _. repeat split; assumption.
Qed.

Lemma setterOf_fieldOf (fld fld' : NumericField) (v : string) (st : State) :
  fieldOf fld' (setterOf fld v st)
  = if match fld, fld' with
       | CurrentAssets, CurrentAssets
       | CurrentLiabilities, CurrentLiabilities
       | Inventory, Inventory
       | TotalAssets, TotalAssets
       | TotalLiabilities, TotalLiabilities
       | ShareholdersEquity, ShareholdersEquity => true
       | _, _ => false
       end
    then v else fieldOf fld' st.
Proof. destruct fld, fld'; reflexivity. Qed.

Lemma step_storable (toUpperCase : string -> string)
      (st : State) (ev : Event) :
  (forall fld, all_chars storable (fieldOf fld st) = true) ->
  forall fld, all_chars storable (fieldOf fld (step toUpperCase st ev)) = true.
Proof.
  intros H fld. destruct ev as [v | v | v | fld0 v | | |]; cbn [step].
  - specialize (H fld). destruct fld; exact H.
  - specialize (H fld). destruct fld; exact H.
  - specialize (H fld). destruct fld; exact H.
  - unfold handleDisplayNumericInputChange. rewrite setterOf_fieldOf.
    destruct (match fld0, fld with
              | CurrentAssets, CurrentAssets
              | CurrentLiabilities, CurrentLiabilities
              | Inventory, Inventory
              | TotalAssets, TotalAssets
              | TotalLiabilities, TotalLiabilities
              | ShareholdersEquity, ShareholdersEquity => true
              | _, _ => false
              end); [| apply H].
    rewrite cleanedForStorage_filter. apply filter_chars_all.
  - specialize (H fld).
    pose proof (calculateRatios_form st) as Hf.
    destruct fld; cbn [fieldOf] in *; rewrite Hf; exact H.
  - destruct fld; reflexivity.
  - apply H.
Qed.

(** X17: in every reachable state each of the six numeric fields holds only
    digits, points and minus signs: the fields are written by the numeric
    input handler and by Clear only, and [calculateRatios] never rewrites
    them. *)
Theorem reachable_fields_are_storable
        (toUpperCase : string -> string) (evs : list Event)
        (fld : NumericField) :
  all_chars storable (fieldOf fld (run toUpperCase evs initialState)) = true.
Proof.
  assert (H : forall st,
             (forall f, all_chars storable (fieldOf f st) = true) ->
             forall f,
               all_chars storable (fieldOf f (run toUpperCase evs st)) = true).
  { induction evs as [| ev evs IH]; intros st Hst; cbn [run fold_left].
    - exact Hst.
    - apply IH, step_storable, Hst. }
  apply H. intros f; destruct f; reflexivity.
Qed.

(** ** Display of the numeric fields *)


Lemma includes_char_append (c : ascii) (a b : string) :
  includes_char c (a ++ b) = includes_char c a || includes_char c b.
Proof.
  induction a as [| d r IH]; cbn; [reflexivity |].
  rewrite IH. apply orb_assoc.
Qed.

(** X19: what follows a complete number with a fraction in the stored text
    never reaches the screen: a stored "1.2.3" or "10.5-3" is displayed
    exactly as "1.2" or "10.5" would be, although the stored text still
    holds the tail. *)
Theorem formatDisplayNumber_drops_tail
        (toLocaleString : number -> nat -> nat -> string)
        (sgn d1 d2 rest : string) :
  In sgn [""; "-"; "+"] ->
  all_chars is_digit d1 = true -> d1 <> "" ->
  all_chars is_digit d2 = true ->
  endsNumber rest = true ->
  formatDisplayNumber toLocaleString (sgn ++ d1 ++ "." ++ d2 ++ rest)
  = formatDisplayNumber toLocaleString (sgn ++ d1 ++ "." ++ d2).
Proof.
  intros Hs H1 Hne H2 Hr.
  assert (Hinc : forall t,
             includes_char "." (sgn ++ d1 ++ "." ++ d2 ++ t) = true).
  { intros t. rewrite !includes_char_append. cbn [append includes_char].
    change (Ascii.eqb "." ".") with true.
    rewrite orb_true_r. cbn. rewrite orb_true_r. reflexivity. }
  assert (Hnum : forall t,
             endsNumber t = true ->
             formatDisplayNumber toLocaleString (sgn ++ d1 ++ "." ++ d2 ++ t)
             = toLocaleString
                 (of_decimal (sgn =? "-")%string
                    (fst (fst (read_digits d2
                                 (fst (fst (read_digits d1 0 0))) 0)))
                    (0 - snd (fst (read_digits d2
                                     (fst (fst (read_digits d1 0 0))) 0))))
                 2%nat 2%nat).
  { intros t Ht. unfold formatDisplayNumber.
    pose proof (Hinc t) as Hi.
    destruct (String.eqb_spec (sgn ++ d1 ++ "." ++ d2 ++ t) "") as [E | _].
    - rewrite E in Hi. discriminate Hi.
    - rewrite (parseFloat_fraction sgn d1 d2 t Hs H1 Hne H2 Ht).
      rewrite of_decimal_not_NaN, Hi. reflexivity. }
  rewrite (Hnum rest Hr).
  rewrite <- (append_empty_r d2) at 3.
  rewrite (Hnum "" eq_refl). reflexivity.
Qed.

Lemma formatDisplayNumber_drops_tail_witness :
  formatDisplayNumber (fun x _ _ => toFixed x 2) "1.2.3"
  = formatDisplayNumber (fun x _ _ => toFixed x 2) "1.2".
Proof.
  apply (formatDisplayNumber_drops_tail (fun x _ _ => toFixed x 2)
           "" "1" "2" ".3");
    first [ discriminate | reflexivity | cbv [In]; tauto ].
Defined.

(** ** Display of the report date *)

Lemma split_on_no_sep (sep : ascii) (y : string) :
  includes_char sep y = false -> split_on sep y = [y].
Proof.
  induction y as [| c r IH]; cbn; [reflexivity |].
  intros H. apply orb_false_iff in H. destruct H as [Hc Hr].
  rewrite Hc, (IH Hr). reflexivity.
Qed.

Lemma split_on_sep (sep : ascii) (a r : string) :
  includes_char sep a = false ->
  split_on sep (a ++ String sep r) = a :: split_on sep r.
Proof.
  induction a as [| c a' IH]; cbn [append split_on includes_char].
  - intros _. rewrite Ascii.eqb_refl. reflexivity.
  - intros H. apply orb_false_iff in H. destruct H as [Hc Ha].
    rewrite Hc, (IH Ha). reflexivity.
Qed.

(** X20: a date typed as day-month-year whose month, in lower case, is one
    of the twelve Spanish abbreviations is displayed verbatim, without
    reaching the date parser: neither the day nor the year is checked in any
    way (they may be empty or not numbers at all). *)
Theorem formatDateForDisplay_keeps_formatted_dates
        (toLowerCase dateFallback : string -> string)
        (day monthStr year : string) :
  includes_char "-" day = false ->
  includes_char "-" monthStr = false ->
  includes_char "-" year = false ->
  In (toLowerCase monthStr) (map fst monthNames) ->
  formatDateForDisplay toLowerCase dateFallback
    (day ++ "-" ++ monthStr ++ "-" ++ year)
  = day ++ "-" ++ monthStr ++ "-" ++ year.
Proof.
  intros Hd Hm Hy Hin.
  unfold formatDateForDisplay.
  assert (Ht : truthy (day ++ "-" ++ monthStr ++ "-" ++ year) = true)
    by (destruct day; reflexivity).
  rewrite Ht. cbn [negb].
  change ("-" ++ monthStr ++ "-" ++ year)
    with (String "-" (monthStr ++ String "-" year)).
  rewrite (split_on_sep "-" day _ Hd), (split_on_sep "-" monthStr _ Hm),
    (split_on_no_sep "-" year Hy).
  assert (Hk : monthNum_truthy (toLowerCase monthStr) = true).
  { cbv [monthNames map fst In] in Hin.
    repeat (destruct Hin as [<- | Hin]; [reflexivity |]).
    contradiction. }
  rewrite Hk. reflexivity.
Qed.

Lemma formatDateForDisplay_keeps_formatted_dates_witness :
  formatDateForDisplay (fun s => s) (fun _ => "") "99-dic-" = "99-dic-".
Proof.
  apply (formatDateForDisplay_keeps_formatted_dates
           (fun s => s) (fun _ => "") "99" "dic" "");
    first [ reflexivity | cbv [monthNames map fst In]; tauto ].
Defined.
